(** * MusicManager: zone-aware background music controller

    A shallow embedding of [game/audio_manager.py] (class [MusicManager]).

    - Python [str] values are modelled as [string]; [str.lower], [str.strip]
      and friends are given on ASCII text.
    - Python floats (the volumes) are kept abstract behind the [FloatOps]
      interface, so that every statement about volumes holds whatever the
      rounding of the arithmetic is; exact rationals give one instance.
    - The file system, the JSON parser and the sample decoder are read-only
      inputs collected in the [World] record.
    - Methods that mutate [self] are computations in a small state and
      exception monad [Py]; methods that only read it are plain functions
      of [self].  [print] and [logging] calls are left out.
    - Each mixer channel is an (optional) object carrying what it is
      playing and its volume; every call on a channel is also appended to
      the [mixer_calls] history. *)

From Stdlib Require Import ZArith QArith String Ascii List Bool Lia Lqa.
From stdpp Require Import gmap strings list.
Import ListNotations.

Set Warnings "-register-all".

Local Open Scope string_scope.
Local Open Scope list_scope.

(** ** Python string operations (ASCII text) *)

Module PyStr.

(** [c.lower()] on one ASCII character. *)
Definition lower_char (c : ascii) : ascii :=
  let n := nat_of_ascii c in
  if (65 <=? n)%nat && (n <=? 90)%nat then ascii_of_nat (n + 32) else c.

(** [s.lower()] *)
Fixpoint lower (s : string) : string :=
  match s with
  | EmptyString => EmptyString
  | String c r => String (lower_char c) (lower r)
  end.

(** [c.isspace()] for an ASCII character: TAB, LF, VT, FF, CR, the four
    separators FS, GS, RS, US, and the blank. *)
Definition isspace (c : ascii) : bool :=
  let n := nat_of_ascii c in
  ((9 <=? n)%nat && (n <=? 13)%nat) || ((28 <=? n)%nat && (n <=? 32)%nat).

(** [s.lstrip()] *)
Fixpoint lstrip (s : string) : string :=
  match s with
  | EmptyString => EmptyString
  | String c r => if isspace c then lstrip r else s
  end.

(** [s.rstrip()] *)
Fixpoint rstrip (s : string) : string :=
  match s with
  | EmptyString => EmptyString
  | String c r =>
      match rstrip r with
      | EmptyString => if isspace c then EmptyString else String c EmptyString
      | r' => String c r'
      end
  end.

(** [s.strip()] *)
Definition strip (s : string) : string := rstrip (lstrip s).

(** [s.endswith(suffix)] *)
Definition endswith (s suffix : string) : bool :=
  (String.length suffix <=? String.length s)%nat
  && String.eqb
       (substring (String.length s - String.length suffix)
                  (String.length suffix) s)
       suffix.

(** [s.startswith(prefix)] *)
Definition startswith (s pre : string) : bool := String.prefix pre s.

(** [s[:-4]]: everything but the last four characters (empty when
    [s] is shorter than that). *)
Definition drop_last4 (s : string) : string :=
  substring 0 (String.length s - 4) s.

(** [s.replace(a, b)] for one-character [a] and [b]. *)
Fixpoint replace_char (a b : ascii) (s : string) : string :=
  match s with
  | EmptyString => EmptyString
  | String c r =>
      String (if Ascii.eqb c a then b else c) (replace_char a b r)
  end.

(** Truth value of a string: non-empty. *)
Definition truthy (s : string) : bool :=
  match s with EmptyString => false | _ => true end.

(** [os.path.join(a, b)] (POSIX). *)
Definition path_join (a b : string) : string :=
  if startswith b "/" then b
  else if negb (truthy a) || endswith a "/" then a ++ b
  else a ++ "/" ++ b.

End PyStr.

(** The track-name clean-up that appears twice in the source:
    [if track_name.endswith('.mp3'): track_name = track_name[:-4]]. *)
Definition remove_mp3 (track_name : string) : string :=
  if PyStr.endswith track_name ".mp3" then PyStr.drop_last4 track_name
  else track_name.

(** ** Parsed JSON and the outside world *)

(** What [json.load] returns.  A [JDict] lists the items of a Python dict
    in insertion order; a dict has pairwise distinct keys. *)
Inductive json : Type :=
| JNull
| JBool (b : bool)
| JNum (n : Z)
| JStr (s : string)
| JList (l : list json)
| JDict (items : list (string * json)).

(** A [pygame.mixer.Sound], identified by the file it was decoded from. *)
Inductive Sound : Type := SoundOf (file : string).

(** Python exceptions that the modelled code can meet. *)
Inductive exn : Type :=
| AttributeError
| OSError
| JSONDecodeError
| PygameError.

(** The read-only environment of the controller. *)
Record World : Type := {
  (** [os.path.exists] *)
  path_exists : string -> bool;
  (** [os.path.isfile] *)
  path_isfile : string -> bool;
  (** [os.listdir]; [None] when it raises *)
  listdir : string -> option (list string);
  (** [open] followed by [json.load]; [inl e] when either raises [e] *)
  json_load : string -> exn + json;
  (** whether [pygame.mixer.Sound(path)] decodes the file ([false]: it raises) *)
  sound_loads : string -> bool
}.

(** [d.get(key)] on the items of a dict. *)
Fixpoint dict_get (items : list (string * json)) (key : string) : option json :=
  match items with
  | [] => None
  | (k, v) :: rest => if String.eqb k key then Some v else dict_get rest key
  end.

(** ** Zone Track Resolver: [create_zone_music_map] *)

(** [data.get("music", "").strip()]: [data] must be a dict and the value
    a string, anything else has no such method. *)
Definition music_field (data : json) : exn + string :=
  match data with
  | JDict fields =>
      match dict_get fields "music" with
      | None => inr (PyStr.strip "")
      | Some (JStr s) => inr (PyStr.strip s)
      | Some _ => inl AttributeError
      end
  | _ => inl AttributeError
  end.

(** The body of the [for zone, data in maps_data.items()] loop, run over
    the remaining items.  The local dict [zone_music] keeps what was
    stored before an exception left the loop. *)
Fixpoint zone_loop (items : list (string * json))
    (zone_music : gmap string string) : gmap string string * option exn :=
  match items with
  | [] => (zone_music, None)
  | (zone, data) :: rest =>
      match music_field data with
      | inl e => (zone_music, Some e)
      | inr track_name =>
          if PyStr.truthy track_name
          then zone_loop rest (<[zone := remove_mp3 track_name]> zone_music)
          else zone_loop rest zone_music
      end
  end.

(** The [try] block: open and parse the file, then run the loop.
    [.items()] exists on dicts only. *)
Definition try_load_zone_music (w : World) (maps_json_path : string)
    (zone_music : gmap string string) : gmap string string * option exn :=
  match json_load w maps_json_path with
  | inl e => (zone_music, Some e)
  | inr (JDict items) => zone_loop items zone_music
  | inr _ => (zone_music, Some AttributeError)
  end.

(** The fallback entry of step 2. *)
Definition default_zone_music : gmap string string :=
  {[ "coroTown" := "CoroTown" ]}.

(** [bool(zone_music)]: a dict is true when it has an entry. *)
Definition dict_truthy (m : gmap string string) : bool :=
  negb (bool_decide (m = ∅)).

(** [create_zone_music_map(self)]; it reads [self.maps_json_path] only.
    The [except Exception] clause logs and goes on. *)
Definition create_zone_music_map (w : World) (maps_json_path : string)
    : gmap string string :=
  let zone_music : gmap string string := ∅ in
  let zone_music :=
    if PyStr.truthy maps_json_path && path_isfile w maps_json_path
    then fst (try_load_zone_music w maps_json_path zone_music)
    else zone_music in
  if negb (dict_truthy zone_music) then default_zone_music else zone_music.

(** The first statements of [set_zone_music]: look the zone up, with the
    lower-cased zone name as default, then drop a trailing [.mp3]. *)
Definition resolve_track (zone_music_map : gmap string string)
    (zone_name : string) : string :=
  let track_name := default (PyStr.lower zone_name) (zone_music_map !! zone_name) in
  remove_mp3 track_name.

(** The statement of the resolver as the specification words it:
    the map entry when present, otherwise the lower-cased zone name. *)
Definition spec_resolve (zone_music_map : gmap string string)
    (zone_name : string) : string :=
  match zone_music_map !! zone_name with
  | Some track => track
  | None => PyStr.lower zone_name
  end.

(** An entry as the configuration format describes it: an object whose
    [music] field, when there is one, is a string. *)
Definition entry_ok (data : json) : Prop :=
  match data with
  | JDict fields =>
      match dict_get fields "music" with
      | None | Some (JStr _) => True
      | Some _ => False
      end
  | _ => False
  end.

Definition config_ok (items : list (string * json)) : Prop :=
  Forall (fun zd => entry_ok (snd zd)) items.

(** ** Floats *)

(** The float operations the controller uses.  [f_lit q] is the float a
    decimal literal such as [0.6] denotes, [f_of_int] the conversion an
    [int] operand undergoes, [f_ltb] the comparison [<]. *)
Class FloatOps (V : Type) : Type := {
  f_lit : Q -> V;
  f_of_int : Z -> V;
  f_add : V -> V -> V;
  f_sub : V -> V -> V;
  f_div : V -> V -> V;
  f_ltb : V -> V -> bool
}.

(** Exact rational arithmetic as one instance. *)
#[global] Instance Q_FloatOps : FloatOps Q := {|
  f_lit q := q;
  f_of_int z := inject_Z z;
  f_add := Qplus;
  f_sub := Qminus;
  f_div := Qdiv;
  f_ltb a b := negb (Qle_bool b a)
|}.

(** The two output lanes: mixer channel 0 and mixer channel 1. *)
Inductive Lane : Type := BaseLane | IdleLane.

Definition is_some {A : Type} (o : option A) : bool :=
  match o with Some _ => true | None => false end.

(** [if alt_path:] on a value that is a path or [None]. *)
Definition path_truthy (o : option string) : bool :=
  match o with Some p => PyStr.truthy p | None => false end.

(** How a call ends: it returns a value or raises. *)
Inductive outcome (A : Type) : Type :=
| Done (a : A)
| Raised (e : exn).
Arguments Done {A} a.
Arguments Raised {A} e.

Section Controller.

Context {V : Type} {F : FloatOps V}.

(** Python's built-in [max(a, b)] and [min(a, b)]: the first argument
    stays unless the second is strictly beyond it. *)
Definition py_max (a b : V) : V := if f_ltb a b then b else a.
Definition py_min (a b : V) : V := if f_ltb b a then b else a.

(** What a [pygame.mixer.Channel] holds: the sample it loops (every
    [play] of this class passes [loops=-1]) and its volume. *)
Record Channel : Type := {
  chan_playing : option Sound;
  chan_volume : V
}.

(** [Channel.play(sound, loops=-1)].  The mixer documents that a channel
    which starts to play has its volume reset; each [play] of this class
    is followed at once by [set_volume]. *)
Definition chan_play (s : Sound) (ch : Channel) : Channel :=
  {| chan_playing := Some s; chan_volume := f_lit 1 |}.

(** [Channel.stop()] *)
Definition chan_stop (ch : Channel) : Channel :=
  {| chan_playing := None; chan_volume := chan_volume ch |}.

(** [Channel.set_volume(v)] *)
Definition chan_set_volume (v : V) (ch : Channel) : Channel :=
  {| chan_playing := chan_playing ch; chan_volume := v |}.

(** [Channel.get_busy()] *)
Definition chan_get_busy (ch : Channel) : bool := is_some (chan_playing ch).

(** A call made on a lane's channel. *)
Inductive MixerCall : Type :=
| Play (l : Lane) (s : Sound)
| Stop (l : Lane)
| SetVolume (l : Lane) (v : V).

(** The attributes of a [MusicManager] instance, followed by the history
    of the channel calls it has made (oldest first). *)
Record MusicManager : Type := {
  maps_json_path : string;
  zone_music_map : gmap string string;
  folder : string;
  base : string;
  music_channel : option Channel;
  idle_channel : option Channel;
  main_sound : option Sound;
  idle_sound : option Sound;
  normal_volume : V;
  muffled_volume : V;
  current_volume : V;
  fade_speed : V;
  is_idle_version : bool;
  maps_data : json;
  mixer_calls : list MixerCall
}.

(** Attribute assignments [self.x = v]. *)
Definition set_base (v : string) (self : MusicManager) : MusicManager :=
  {| maps_json_path := maps_json_path self; zone_music_map := zone_music_map self;
     folder := folder self; base := v;
     music_channel := music_channel self; idle_channel := idle_channel self;
     main_sound := main_sound self; idle_sound := idle_sound self;
     normal_volume := normal_volume self; muffled_volume := muffled_volume self;
     current_volume := current_volume self; fade_speed := fade_speed self;
     is_idle_version := is_idle_version self; maps_data := maps_data self;
     mixer_calls := mixer_calls self |}.

Definition set_music_channel (v : option Channel) (self : MusicManager) : MusicManager :=
  {| maps_json_path := maps_json_path self; zone_music_map := zone_music_map self;
     folder := folder self; base := base self;
     music_channel := v; idle_channel := idle_channel self;
     main_sound := main_sound self; idle_sound := idle_sound self;
     normal_volume := normal_volume self; muffled_volume := muffled_volume self;
     current_volume := current_volume self; fade_speed := fade_speed self;
     is_idle_version := is_idle_version self; maps_data := maps_data self;
     mixer_calls := mixer_calls self |}.

Definition set_idle_channel (v : option Channel) (self : MusicManager) : MusicManager :=
  {| maps_json_path := maps_json_path self; zone_music_map := zone_music_map self;
     folder := folder self; base := base self;
     music_channel := music_channel self; idle_channel := v;
     main_sound := main_sound self; idle_sound := idle_sound self;
     normal_volume := normal_volume self; muffled_volume := muffled_volume self;
     current_volume := current_volume self; fade_speed := fade_speed self;
     is_idle_version := is_idle_version self; maps_data := maps_data self;
     mixer_calls := mixer_calls self |}.

Definition set_main_sound (v : option Sound) (self : MusicManager) : MusicManager :=
  {| maps_json_path := maps_json_path self; zone_music_map := zone_music_map self;
     folder := folder self; base := base self;
     music_channel := music_channel self; idle_channel := idle_channel self;
     main_sound := v; idle_sound := idle_sound self;
     normal_volume := normal_volume self; muffled_volume := muffled_volume self;
     current_volume := current_volume self; fade_speed := fade_speed self;
     is_idle_version := is_idle_version self; maps_data := maps_data self;
     mixer_calls := mixer_calls self |}.

Definition set_idle_sound (v : option Sound) (self : MusicManager) : MusicManager :=
  {| maps_json_path := maps_json_path self; zone_music_map := zone_music_map self;
     folder := folder self; base := base self;
     music_channel := music_channel self; idle_channel := idle_channel self;
     main_sound := main_sound self; idle_sound := v;
     normal_volume := normal_volume self; muffled_volume := muffled_volume self;
     current_volume := current_volume self; fade_speed := fade_speed self;
     is_idle_version := is_idle_version self; maps_data := maps_data self;
     mixer_calls := mixer_calls self |}.

Definition set_current_volume (v : V) (self : MusicManager) : MusicManager :=
  {| maps_json_path := maps_json_path self; zone_music_map := zone_music_map self;
     folder := folder self; base := base self;
     music_channel := music_channel self; idle_channel := idle_channel self;
     main_sound := main_sound self; idle_sound := idle_sound self;
     normal_volume := normal_volume self; muffled_volume := muffled_volume self;
     current_volume := v; fade_speed := fade_speed self;
     is_idle_version := is_idle_version self; maps_data := maps_data self;
     mixer_calls := mixer_calls self |}.

Definition set_is_idle_version (v : bool) (self : MusicManager) : MusicManager :=
  {| maps_json_path := maps_json_path self; zone_music_map := zone_music_map self;
     folder := folder self; base := base self;
     music_channel := music_channel self; idle_channel := idle_channel self;
     main_sound := main_sound self; idle_sound := idle_sound self;
     normal_volume := normal_volume self; muffled_volume := muffled_volume self;
     current_volume := current_volume self; fade_speed := fade_speed self;
     is_idle_version := v; maps_data := maps_data self;
     mixer_calls := mixer_calls self |}.

Definition set_mixer_calls (v : list MixerCall) (self : MusicManager) : MusicManager :=
  {| maps_json_path := maps_json_path self; zone_music_map := zone_music_map self;
     folder := folder self; base := base self;
     music_channel := music_channel self; idle_channel := idle_channel self;
     main_sound := main_sound self; idle_sound := idle_sound self;
     normal_volume := normal_volume self; muffled_volume := muffled_volume self;
     current_volume := current_volume self; fade_speed := fade_speed self;
     is_idle_version := is_idle_version self; maps_data := maps_data self;
     mixer_calls := v |}.

(** Append a channel call to the history. *)
Definition record_call (c : MixerCall) (self : MusicManager) : MusicManager :=
  set_mixer_calls (mixer_calls self ++ [c]) self.

(** *** The state and exception monad *)

Definition Py (A : Type) : Type := MusicManager -> outcome A * MusicManager.

Definition py_ret {A : Type} (a : A) : Py A := fun self => (Done a, self).

Definition py_bind {A B : Type} (m : Py A) (k : A -> Py B) : Py B :=
  fun self =>
    match m self with
    | (Done a, self') => k a self'
    | (Raised e, self') => (Raised e, self')
    end.

Definition py_raise {A : Type} (e : exn) : Py A := fun self => (Raised e, self).

(** [try: body  except Exception as e: handler(e)]; what [body] did to
    [self] before raising stays done. *)
Definition py_try (body : Py unit) (handler : exn -> Py unit) : Py unit :=
  fun self =>
    match body self with
    | (Done a, self') => (Done a, self')
    | (Raised e, self') => handler e self'
    end.

Definition py_self : Py MusicManager := fun self => (Done self, self).

Definition py_assign (f : MusicManager -> MusicManager) : Py unit :=
  fun self => (Done tt, f self).

#[global] Instance Py_ret : MRet Py := @py_ret.
#[global] Instance Py_bind : MBind Py := fun A B k m => py_bind m k.

(** [pass]; also the handlers that only print. *)
Definition pass : Py unit := py_ret tt.

End Controller.

Arguments Channel V : clear implicits.
Arguments MixerCall V : clear implicits.
Arguments MusicManager V : clear implicits.
Arguments Py V A : clear implicits.

(** ** Playback Controller: the methods of [MusicManager] *)

Section Methods.

Context {V : Type} {F : FloatOps V}.
Variable w : World.

(** [pygame.mixer.Sound(path)] *)
Definition mixer_Sound (path : string) : Py V Sound :=
  if sound_loads w path then mret (SoundOf path) else py_raise PygameError.

(** A method call on [self.music_channel]: an [AttributeError] when the
    attribute is still [None]. *)
Definition music_channel_call (f : Channel V -> Channel V) (c : MixerCall V)
    : Py V unit :=
  self ← py_self;
  match music_channel self with
  | Some ch => py_assign (fun self => record_call c (set_music_channel (Some (f ch)) self))
  | None => py_raise AttributeError
  end.

(** A method call on [self.idle_channel]. *)
Definition idle_channel_call (f : Channel V -> Channel V) (c : MixerCall V)
    : Py V unit :=
  self ← py_self;
  match idle_channel self with
  | Some ch => py_assign (fun self => record_call c (set_idle_channel (Some (f ch)) self))
  | None => py_raise AttributeError
  end.

(** [self.music_channel.get_busy()] *)
Definition music_channel_get_busy : Py V bool :=
  self ← py_self;
  match music_channel self with
  | Some ch => mret (chan_get_busy ch)
  | None => py_raise AttributeError
  end.

(** First file of the listing whose lower-cased name is [target]. *)
Definition first_match (files : list string) (target : string) : option string :=
  find (fun file => String.eqb (PyStr.lower file) target) files.

(** [find_music_file_case_insensitive(self, track_name)] *)
Definition find_music_file_case_insensitive (self : MusicManager V)
    (track_name : string) : option string :=
  if negb (path_exists w (folder self)) then None
  else
    match listdir w (folder self) with
    | None => None
    | Some files =>
        let target_filename := PyStr.lower (track_name ++ ".mp3") in
        match first_match files target_filename with
        | Some file => Some (PyStr.path_join (folder self) file)
        | None =>
            let track_with_spaces := PyStr.replace_char "_" " " track_name in
            let target_filename_spaces := PyStr.lower (track_with_spaces ++ ".mp3") in
            match first_match files target_filename_spaces with
            | Some file => Some (PyStr.path_join (folder self) file)
            | None =>
                let track_with_underscores := PyStr.replace_char " " "_" track_name in
                let target_filename_underscores :=
                  PyStr.lower (track_with_underscores ++ ".mp3") in
                match first_match files target_filename_underscores with
                | Some file => Some (PyStr.path_join (folder self) file)
                | None => None
                end
            end
        end
    end.

(** [get_full_path(self, name)] *)
Definition get_full_path (self : MusicManager V) (name : string) : string :=
  let exact_path := PyStr.path_join (folder self) (name ++ ".mp3") in
  if path_exists w exact_path then exact_path
  else
    let alt_path := find_music_file_case_insensitive self name in
    match alt_path with
    | Some p => if PyStr.truthy p then p else exact_path
    | None => exact_path
    end.

(** The file that [load_base_track] and [play_idle_track] end up handing
    to the decoder for the track [name]: the path of [get_full_path] when
    it exists, otherwise what the second, case-insensitive search returns;
    [None] when the track has no file. *)
Definition located_file (self : MusicManager V) (name : string) : option string :=
  let full_path := get_full_path self name in
  if path_exists w full_path then Some full_path
  else
    match find_music_file_case_insensitive self name with
    | Some alt_path => if PyStr.truthy alt_path then Some alt_path else None
    | None => None
    end.

(** [load_base_track(self)] *)
Definition load_base_track : Py V unit :=
  self ← py_self;
  let track_path := get_full_path self (base self) in
  py_try
    (if path_exists w track_path then
       s ← mixer_Sound track_path;
       py_assign (set_main_sound (Some s))
     else
       match find_music_file_case_insensitive self (base self) with
       | Some alt_path =>
           if PyStr.truthy alt_path then
             s ← mixer_Sound alt_path;
             py_assign (set_main_sound (Some s))
           else pass
       | None => pass
       end)
    (fun _ => pass).

(** [play_base_track(self)] *)
Definition play_base_track : Py V unit :=
  self ← py_self;
  match main_sound self, music_channel self with
  | Some s, Some _ =>
      music_channel_call (chan_play s) (Play BaseLane s);;
      self ← py_self;
      music_channel_call (chan_set_volume (current_volume self))
                         (SetVolume BaseLane (current_volume self))
  | _, _ => pass
  end.

(** [stop_base_track(self)] *)
Definition stop_base_track : Py V unit :=
  self ← py_self;
  if is_some (music_channel self)
  then music_channel_call chan_stop (Stop BaseLane)
  else pass.

(** [set_zone_music(self, zone_name)] *)
Definition set_zone_music (zone_name : string) : Py V unit :=
  self ← py_self;
  let track_name := resolve_track (zone_music_map self) zone_name in
  if negb (String.eqb track_name (base self)) then
    py_assign (set_base track_name);;
    stop_base_track;;
    load_base_track;;
    self ← py_self;
    if is_some (main_sound self) then
      play_base_track;;
      py_assign (set_is_idle_version false);;
      self ← py_self;
      py_assign (set_current_volume (normal_volume self))
    else pass
  else pass.

(** The body of the [for _ in range(steps)] loop of [fade_to], run
    [n] times.  ([pygame.time.delay] only passes time.) *)
Fixpoint fade_loop (n : nat) (volume_step : V) : Py V unit :=
  match n with
  | O => pass
  | S n' =>
      self ← py_self;
      py_assign (set_current_volume (f_add (current_volume self) volume_step));;
      self ← py_self;
      py_assign (set_current_volume
                   (py_max (f_lit 0) (py_min (f_lit 1) (current_volume self))));;
      self ← py_self;
      music_channel_call (chan_set_volume (current_volume self))
                         (SetVolume BaseLane (current_volume self));;
      fade_loop n' volume_step
  end.

(** [fade_to(self, target_volume)] *)
Definition fade_to (target_volume : V) : Py V unit :=
  self ← py_self;
  if negb (is_some (music_channel self)) then pass
  else
    let steps := 10%Z in
    let volume_step :=
      f_div (f_sub target_volume (current_volume self)) (f_of_int steps) in
    fade_loop (Z.to_nat steps) volume_step.

(** The [try] body shared by both branches of [play_idle_track]. *)
Definition start_idle_sound (file : string) : Py V unit :=
  s ← mixer_Sound file;
  py_assign (set_idle_sound (Some s));;
  idle_channel_call (chan_play s) (Play IdleLane s);;
  self ← py_self;
  idle_channel_call (chan_set_volume (muffled_volume self))
                    (SetVolume IdleLane (muffled_volume self)).

(** [play_idle_track(self, track_name)] *)
Definition play_idle_track (track_name : string) : Py V unit :=
  self ← py_self;
  (if is_some (idle_channel self)
   then idle_channel_call chan_stop (Stop IdleLane)
   else pass);;
  self ← py_self;
  let full_path := get_full_path self track_name in
  if path_exists w full_path then
    py_try (start_idle_sound full_path) (fun _ => pass)
  else
    match find_music_file_case_insensitive self track_name with
    | Some alt_path =>
        if PyStr.truthy alt_path
        then py_try (start_idle_sound alt_path) (fun _ => pass)
        else pass
    | None => pass
    end.

(** [trigger_idle_audio(self, idle_option)] *)
Definition trigger_idle_audio (idle_option : Z) : Py V unit :=
  self ← py_self;
  if negb (is_some (music_channel self)) then pass
  else
    (if (idle_option =? 1)%Z then fade_to (muffled_volume self)
     else if (idle_option =? 2)%Z then play_idle_track "idleDaniel"
     else if (idle_option =? 3)%Z then play_idle_track "idle_track_2"
     else pass);;
    py_assign (set_is_idle_version true).

(** [reset_to_base_audio(self)] *)
Definition reset_to_base_audio : Py V unit :=
  self ← py_self;
  if is_idle_version self then
    (match idle_channel self with
     | Some ch =>
         if chan_get_busy ch
         then idle_channel_call chan_stop (Stop IdleLane)
         else pass
     | None => pass
     end);;
    busy ← music_channel_get_busy;
    self ← py_self;
    (if negb busy && is_some (main_sound self) then play_base_track else pass);;
    self ← py_self;
    fade_to (normal_volume self);;
    self ← py_self;
    py_assign (set_current_volume (normal_volume self));;
    py_assign (set_is_idle_version false)
  else pass.

(** [load_maps_data(self, maps_json_path)]; the [len(maps_data)] in its
    log line raises on a parsed value that has no length. *)
Definition load_maps_data (maps_json_path : option string) : json :=
  if negb (path_truthy maps_json_path) then JDict []
  else
    match maps_json_path with
    | None => JDict []
    | Some p =>
        if negb (path_exists w p) then JDict []
        else
          match json_load w p with
          | inr (JNull | JBool _ | JNum _) => JDict []
          | inr maps_data => maps_data
          | inl _ => JDict []
          end
    end.

(** [init_channels(self)]: the handles of channel 0 and channel 1 of a
    freshly initialised mixer. *)
Definition fresh_channel : Channel V :=
  {| chan_playing := None; chan_volume := f_lit 1 |}.

Definition init_channels : Py V unit :=
  py_assign (set_music_channel (Some fresh_channel));;
  py_assign (set_idle_channel (Some fresh_channel)).

(** [__init__(self, starting_track, music_dir, maps_json_path=None)];
    [here] is [os.path.dirname(__file__)]. *)
Definition MusicManager_init (here : string) (starting_track music_dir : string)
    (maps_json_path : option string) : outcome unit * MusicManager V :=
  let json_path :=
    if path_truthy maps_json_path then default "" maps_json_path
    else PyStr.path_join here "maps.json" in
  let self :=
    {| maps_json_path := json_path;
       zone_music_map := create_zone_music_map w json_path;
       folder := music_dir;
       base := starting_track;
       music_channel := None;
       idle_channel := None;
       main_sound := None;
       idle_sound := None;
       normal_volume := f_lit (6 # 10);
       muffled_volume := f_lit (2 # 10);
       current_volume := f_lit (6 # 10);
       fade_speed := f_lit (1 # 100);
       is_idle_version := false;
       maps_data := load_maps_data maps_json_path;
       mixer_calls := [] |} in
  (init_channels;;
   load_base_track;;
   self ← py_self;
   if is_some (main_sound self) then play_base_track else pass) self.

(** *** Descriptions used in the statements below *)

(** The track each separate-track option asks for in [trigger_idle_audio]. *)
Definition idle_track_name (idle_option : Z) : string :=
  if (idle_option =? 2)%Z then "idleDaniel" else "idle_track_2".

(** A call that addresses the idle lane. *)
Definition on_idle_lane (c : MixerCall V) : Prop :=
  match c with
  | Play l _ | Stop l | SetVolume l _ => l = IdleLane
  end.

(** The controller that [play_idle_track] leaves behind, written out
    branch by branch ([play_idle_track_eq] below proves it). *)
Definition idle_track_result (name : string) (self : MusicManager V)
    : MusicManager V :=
  let stopped :=
    match idle_channel self with
    | Some ic =>
        record_call (Stop IdleLane) (set_idle_channel (Some (chan_stop ic)) self)
    | None => self
    end in
  match located_file self name with
  | Some file =>
      if sound_loads w file then
        match idle_channel self with
        | Some ic =>
            let s := SoundOf file in
            record_call (SetVolume IdleLane (muffled_volume self))
              (set_idle_channel
                 (Some (chan_set_volume (muffled_volume self)
                          (chan_play s (chan_stop ic))))
                 (record_call (Play IdleLane s)
                    (set_idle_channel (Some (chan_play s (chan_stop ic)))
                       (set_idle_sound (Some s) stopped))))
        | None => set_idle_sound (Some (SoundOf file)) stopped
        end
      else stopped
  | None => stopped
  end.

(** The controller that [set_zone_music] leaves behind when the resolved
    track differs from [base], step by step: rename, stop, load, and,
    with a main sound in hand, play and reset the idle state
    ([set_zone_music_switch] below proves it). *)
Definition zone_switch_result (zone_name : string) (self : MusicManager V)
    : MusicManager V :=
  let track_name := resolve_track (zone_music_map self) zone_name in
  let renamed := set_base track_name self in
  let stopped :=
    match music_channel self with
    | Some mc =>
        record_call (Stop BaseLane)
          (set_music_channel (Some (chan_stop mc)) renamed)
    | None => renamed
    end in
  let loaded :=
    match located_file self track_name with
    | Some file =>
        if sound_loads w file
        then set_main_sound (Some (SoundOf file)) stopped
        else stopped
    | None => stopped
    end in
  match main_sound loaded with
  | Some s =>
      let played :=
        match music_channel self with
        | Some mc =>
            record_call (SetVolume BaseLane (current_volume self))
              (set_music_channel
                 (Some (chan_set_volume (current_volume self)
                          (chan_play s (chan_stop mc))))
                 (record_call (Play BaseLane s)
                    (set_music_channel (Some (chan_play s (chan_stop mc)))
                       loaded)))
        | None => loaded
        end in
      set_current_volume (normal_volume self) (set_is_idle_version false played)
  | None => loaded
  end.

End Methods.

Arguments fade_to : simpl never.

(** ** Idle variant choice: [choose_idle_option] *)

Module Random.

(** [itertools.accumulate(weights)] *)
Fixpoint accumulate (acc : Z) (weights : list Z) : list Z :=
  match weights with
  | [] => []
  | x :: rest => (acc + x)%Z :: accumulate (acc + x)%Z rest
  end.

(** [bisect.bisect_right(a, x, 0, hi)] on an ascending list: the number
    of entries among the first [hi] that are [<= x]. *)
Fixpoint bisect (a : list Z) (x : Q) (hi : nat) : nat :=
  match hi, a with
  | S hi', e :: rest =>
      if Qle_bool (inject_Z e) x then S (bisect rest x hi') else O
  | _, _ => O
  end.

(** [random.choices(population, weights=weights)[0]], as a function of
    the uniform draw [u = random()] in [0, 1), taken as an exact
    rational.  [None] stands for the [ValueError]s and the [IndexError]
    of the library. *)
Definition choices (population weights : list Z) (u : Q) : option Z :=
  let n := length population in
  let cum_weights := accumulate 0 weights in
  if negb (length cum_weights =? n)%nat then None
  else
    let total := inject_Z (List.last cum_weights 0%Z) in
    if Qle_bool total 0 then None
    else
      let hi := (n - 1)%nat in
      nth_error population (bisect cum_weights (u * total)%Q hi).

End Random.

(** [MusicManager.choose_idle_option()]: a static method, it receives no
    controller.  The default [0] is never taken (see [choices]). *)
Definition choose_idle_option (u : Q) : Z :=
  default 0%Z (Random.choices [1; 2; 3]%Z [5; 2; 2]%Z u).

(** [n] equally spaced draws [0/n, 1/n, ..., (n-1)/n] and how many of
    them make [choose_idle_option] return [v]. *)
Definition draws (n : nat) : list Q :=
  map (fun k => Z.of_nat k # Pos.of_nat n) (seq 0 n).

Definition frequency (n : nat) (v : Z) : nat :=
  count_occ Z.eq_dec (map choose_idle_option (draws n)) v.

(** ** Sample environments *)

(** A machine with no files at all. *)
Definition bare_world : World := {|
  path_exists _ := false;
  path_isfile _ := false;
  listdir _ := None;
  json_load _ := inl OSError;
  sound_loads _ := false
|}.

Definition demo_config : list (string * json) :=
  [ ("coroTown", JDict [("music", JStr "CoroTown")]);
    ("town", JDict [("music", JStr "Theme.mp3")]) ].

Definition one_of (p : string) (l : list string) : bool :=
  existsb (String.eqb p) l.

(** A game directory holding [maps.json] and a [music] folder with two
    tracks; the track [Theme] that the zone [town] asks for is not there. *)
Definition demo_world : World := {|
  path_exists p :=
    one_of p ["maps.json"; "music"; "music/CoroTown.mp3"; "music/idleDaniel.mp3"];
  path_isfile p :=
    one_of p ["maps.json"; "music/CoroTown.mp3"; "music/idleDaniel.mp3"];
  listdir p :=
    if String.eqb p "music" then Some ["CoroTown.mp3"; "idleDaniel.mp3"] else None;
  json_load p :=
    if String.eqb p "maps.json" then inr (JDict demo_config) else inl OSError;
  sound_loads p := one_of p ["music/CoroTown.mp3"; "music/idleDaniel.mp3"]
|}.

(** The controller as [__init__] leaves it in [demo_world], volumes as
    exact rationals. *)
Definition demo_manager : MusicManager Q :=
  snd (MusicManager_init demo_world "src" "CoroTown" "music" (Some "maps.json")).

(** The same, asked to start on a track that has no file. *)
Definition silent_manager : MusicManager Q :=
  snd (MusicManager_init demo_world "src" "Nowhere" "music" (Some "maps.json")).

(** [silent_manager] after the player went idle with option 1: the idle
    flag is set and [current_volume] has been faded down, while no main
    sound was ever loaded. *)
Definition idle_silent_manager : MusicManager Q :=
  snd (trigger_idle_audio demo_world 1 silent_manager).

(** A configuration whose second zone is a number, and one with a zone
    that names no track. *)
Definition broken_config : list (string * json) :=
  [ ("town", JDict [("music", JStr "Theme.mp3")]);
    ("cave", JNum 5);
    ("lake", JDict [("music", JStr "Lake")]) ].

Definition blank_config : list (string * json) :=
  [ ("town", JDict [("music", JStr "Theme.mp3")]);
    ("cave", JDict [("music", JStr "   ")]) ].

Definition world_with_config (items : list (string * json)) : World := {|
  path_exists p := String.eqb p "maps.json";
  path_isfile p := String.eqb p "maps.json";
  listdir _ := None;
  json_load p :=
    if String.eqb p "maps.json" then inr (JDict items) else inl OSError;
  sound_loads _ := false
|}.

(** [demo_manager] gone idle with option 1 (muffled) and with option 2
    (the idle track looping), and an idle controller that never got its
    base channel. *)
Definition muffled_manager : MusicManager Q :=
  snd (trigger_idle_audio demo_world 1 demo_manager).

Definition idle_track_manager : MusicManager Q :=
  snd (trigger_idle_audio demo_world 2 demo_manager).

Definition unguarded_manager : MusicManager Q :=
  set_music_channel None (set_is_idle_version true demo_manager).

(** ** The remaining method and further descriptions *)

(** A call the game makes on the controller. *)
Inductive Call : Type :=
| CallSetZone (zone_name : string)
| CallTriggerIdle (idle_option : Z)
| CallReset.

Section MoreMethods.

Context {V : Type} {F : FloatOps V}.
Variable w : World.

(** [get_zone_info(self, zone_name)]: [self.maps_data.get(zone_name, {})];
    only a dict has [get]. *)
Definition get_zone_info (self : MusicManager V) (zone_name : string)
    : outcome json :=
  match maps_data self with
  | JDict items => Done (default (JDict []) (dict_get items zone_name))
  | _ => Raised AttributeError
  end.

(** One call, and a sequence of calls made one after the other (an
    exception ends the sequence). *)
Definition perform (c : Call) : Py V unit :=
  match c with
  | CallSetZone zone_name => set_zone_music w zone_name
  | CallTriggerIdle idle_option => trigger_idle_audio w idle_option
  | CallReset => reset_to_base_audio
  end.

Fixpoint perform_all (cs : list Call) : Py V unit :=
  match cs with
  | [] => pass
  | c :: rest => perform c;; perform_all rest
  end.

(** Both channel attributes hold a channel. *)
Definition initialised (self : MusicManager V) : Prop :=
  is_some (music_channel self) = true /\ is_some (idle_channel self) = true.

(** What no method ever assigns once [__init__] is over. *)
Definition same_setup (a b : MusicManager V) : Prop :=
  maps_json_path b = maps_json_path a /\
  zone_music_map b = zone_music_map a /\
  folder b = folder a /\
  normal_volume b = normal_volume a /\
  muffled_volume b = muffled_volume a /\
  fade_speed b = fade_speed a /\
  maps_data b = maps_data a.

(** The successive values [fade_to]'s loop gives [current_volume]:
    [n] times, add the step and clamp with [max(0.0, min(1.0, _))]. *)
Fixpoint fade_volumes (n : nat) (volume_step current : V) : list V :=
  match n with
  | O => []
  | S n' =>
      let v := py_max (f_lit 0) (py_min (f_lit 1) (f_add current volume_step)) in
      v :: fade_volumes n' volume_step v
  end.

(** The controller a fade leaves behind, given the volumes it went
    through: they are the new history entries, the last one is both
    [current_volume] and the volume of the base channel. *)
Definition fade_result (vols : list V) (ch : Channel V) (self : MusicManager V)
    : MusicManager V :=
  set_current_volume (List.last vols (current_volume self))
    (set_music_channel
       (Some {| chan_playing := chan_playing ch;
                chan_volume := List.last vols (chan_volume ch) |})
       (set_mixer_calls
          (mixer_calls self ++ map (SetVolume BaseLane) vols) self)).



(** The controller that [reset_to_base_audio] leaves behind on its
    idle-exit path, [mc] being the base channel: stop the idle lane if
    busy, restart the base lane if it is not busy and a main sound is
    there, fade, then assign ([reset_to_base_audio_idle_eq] below proves
    it). *)
Definition resume_result (mc : Channel V) (self : MusicManager V)
    : MusicManager V :=
  let idle_stopped :=
    match idle_channel self with
    | Some ic =>
        if chan_get_busy ic
        then record_call (Stop IdleLane)
               (set_idle_channel (Some (chan_stop ic)) self)
        else self
    | None => self
    end in
  let restarted :=
    if negb (chan_get_busy mc) then
      match main_sound self with
      | Some s =>
          let mc' := chan_set_volume (current_volume self) (chan_play s mc) in
          (mc',
           record_call (SetVolume BaseLane (current_volume self))
             (set_music_channel (Some mc')
                (record_call (Play BaseLane s)
                   (set_music_channel (Some (chan_play s mc)) idle_stopped))))
      | None => (mc, idle_stopped)
      end
    else (mc, idle_stopped) in
  let volume_step :=
    f_div (f_sub (normal_volume self) (current_volume self)) (f_of_int 10) in
  let vols := fade_volumes 10 volume_step (current_volume self) in
  set_is_idle_version false
    (set_current_volume (normal_volume self)
       (fade_result vols (fst restarted) (snd restarted))).

(** A volume that is neither below [0.0] nor above [1.0]. *)
Definition in_unit_range (v : V) : Prop :=
  f_ltb v (f_lit 0) = false /\ f_ltb (f_lit 1) v = false.

(** A call that addresses the base lane. *)
Definition on_base_lane (c : MixerCall V) : Prop :=
  match c with
  | Play l _ | Stop l | SetVolume l _ => l = BaseLane
  end.

End MoreMethods.

Arguments fade_volumes : simpl never.

(** The three lower-cased file names [find_music_file_case_insensitive]
    looks for, in the order it tries them. *)
Definition name_targets (track_name : string) : list string :=
  [ PyStr.lower (track_name ++ ".mp3");
    PyStr.lower (PyStr.replace_char "_" " " track_name ++ ".mp3");
    PyStr.lower (PyStr.replace_char " " "_" track_name ++ ".mp3") ].

(** [path_join folder file] for the first listed file that matches the
    first target having a match. *)
Fixpoint first_target_match (folder : string) (files targets : list string)
    : option string :=
  match targets with
  | [] => None
  | t :: rest =>
      match first_match files t with
      | Some file => Some (PyStr.path_join folder file)
      | None => first_target_match folder files rest
      end
  end.

(** * Properties *)

Ltac py_unfold :=
  unfold mbind, mret, Py_bind, Py_ret, py_bind, py_ret, py_try, py_self,
    py_assign, py_raise, pass in *.

(** One step of symbolic execution: simplify, then split on the next
    test the code makes. *)
Ltac py_step :=
  cbn;
  match goal with
  | |- context [if ?b then _ else _] => destruct b eqn:?
  | |- context [match ?o with Some _ => _ | None => _ end] => destruct o eqn:?
  end.

(** ** List helpers for call histories *)

Lemma calls_then0 {A} (l s : list A) : l ++ s = l ++ [] ++ s.
Proof. reflexivity. Qed.

Lemma calls_then1 {A} (l s : list A) a : (l ++ [a]) ++ s = l ++ [a] ++ s.
Proof. now rewrite <- app_assoc. Qed.

Lemma calls_then2 {A} (l s : list A) a b :
  ((l ++ [a]) ++ [b]) ++ s = l ++ [a; b] ++ s.
Proof. now rewrite <- !app_assoc. Qed.

Lemma calls_then3 {A} (l s : list A) a b c :
  (((l ++ [a]) ++ [b]) ++ [c]) ++ s = l ++ [a; b; c] ++ s.
Proof. now rewrite <- !app_assoc. Qed.

Lemma calls_app1 {A} (l : list A) a : l ++ [a] = l ++ [a].
Proof. reflexivity. Qed.

Lemma calls_app3 {A} (l : list A) a b c :
  ((l ++ [a]) ++ [b]) ++ [c] = l ++ [a; b; c].
Proof. now rewrite <- !app_assoc. Qed.

(** ** String helpers *)

Lemma substring_whole (s : string) : substring 0 (String.length s) s = s.
Proof. induction s as [|c s IH]; simpl; [reflexivity | now rewrite IH]. Qed.

Lemma substring_skip_app (t s : string) :
  substring (String.length t) (String.length s) (t ++ s) = s.
Proof.
  induction t as [|c t IH]; simpl; [apply substring_whole | exact IH].
Qed.

Lemma substring_take_app (t s : string) :
  substring 0 (String.length t) (t ++ s) = t.
Proof.
  induction t as [|c t IH]; simpl.
  - now destruct s.
  - now rewrite IH.
Qed.

Lemma length_app_string (t s : string) :
  String.length (t ++ s) = (String.length t + String.length s)%nat.
Proof. induction t as [|c t IH]; simpl; [reflexivity | now rewrite IH]. Qed.

Lemma endswith_app (t s : string) : PyStr.endswith (t ++ s) s = true.
Proof.
  unfold PyStr.endswith. rewrite length_app_string.
  apply andb_true_intro; split.
  - apply Nat.leb_le. lia.
  - replace (String.length t + String.length s - String.length s)%nat
      with (String.length t) by lia.
    rewrite substring_skip_app. apply String.eqb_refl.
Qed.

Lemma remove_mp3_stem (stem : string) : remove_mp3 (stem ++ ".mp3") = stem.
Proof.
  unfold remove_mp3. rewrite endswith_app.
  unfold PyStr.drop_last4. rewrite length_app_string. simpl String.length.
  replace (String.length stem + 4 - 4)%nat with (String.length stem) by lia.
  apply substring_take_app.
Qed.

Lemma remove_mp3_other (t : string) :
  PyStr.endswith t ".mp3" = false -> remove_mp3 t = t.
Proof. intros H. unfold remove_mp3. now rewrite H. Qed.

Example lower_mixed_case : PyStr.lower "Cave.MP3" = "cave.mp3".
Proof. reflexivity. Qed.

Example strip_blanks : PyStr.strip "  coro Town  " = "coro Town".
Proof. reflexivity. Qed.

Example remove_mp3_short : remove_mp3 "mp3" = "mp3" /\ remove_mp3 ".mp3" = "".
Proof. split; reflexivity. Qed.

Example path_join_posix :
  PyStr.path_join "music" "a.mp3" = "music/a.mp3" /\
  PyStr.path_join "music/" "a.mp3" = "music/a.mp3" /\
  PyStr.path_join "music" "/tmp/a.mp3" = "/tmp/a.mp3".
Proof. repeat split; reflexivity. Qed.

(** ** The zone map loader *)

Lemma entry_ok_music_field (data : json) :
  entry_ok data -> exists t, music_field data = inr t.
Proof.
  destruct data as [| | | | |fields]; simpl; try contradiction.
  destruct (dict_get fields "music") as [[| | | | |]|]; try contradiction; eauto.
Qed.

Lemma zone_loop_no_raise (items : list (string * json)) :
  config_ok items -> forall m, snd (zone_loop items m) = None.
Proof.
  induction 1 as [|[zone data] rest Hd _ IH]; intros m; simpl; [reflexivity|].
  destruct (entry_ok_music_field data Hd) as [t ->].
  destruct (PyStr.truthy t); apply IH.
Qed.

Lemma zone_loop_lookup_notin (items : list (string * json)) (z : string) :
  z ∉ map fst items ->
  forall m, fst (zone_loop items m) !! z = m !! z.
Proof.
  induction items as [|[zone data] rest IH]; intros Hz m; simpl; [reflexivity|].
  simpl in Hz. apply not_elem_of_cons in Hz as [Hne Hz].
  destruct (music_field data) as [e|t]; [reflexivity|].
  destruct (PyStr.truthy t).
  - rewrite IH by exact Hz. apply lookup_insert_ne. congruence.
  - now apply IH.
Qed.

Lemma zone_loop_lookup_in (items : list (string * json)) (z : string)
    (data : json) (t : string) :
  config_ok items -> NoDup (map fst items) -> (z, data) ∈ items ->
  music_field data = inr t -> PyStr.truthy t = true ->
  forall m, fst (zone_loop items m) !! z = Some (remove_mp3 t).
Proof.
  induction items as [|[zone d] rest IH]; intros Hok Hnd Hin Hmf Ht m;
    [now apply elem_of_nil in Hin|].
  inversion Hok as [|? ? Hd Hrest]; subst.
  inversion Hnd as [|? ? Hfresh Hnd']; subst.
  simpl. apply elem_of_cons in Hin as [Heq|Hin].
  - inversion Heq; subst. rewrite Hmf, Ht.
    rewrite zone_loop_lookup_notin by exact Hfresh.
    apply lookup_insert_eq.
  - destruct (entry_ok_music_field d Hd) as [t' ->].
    destruct (PyStr.truthy t'); now apply IH.
Qed.

Lemma zone_loop_lookup_inv (items : list (string * json)) (z name : string) :
  forall m, fst (zone_loop items m) !! z = Some name ->
  m !! z = Some name \/
  exists data t, (z, data) ∈ items /\ music_field data = inr t /\
                 PyStr.truthy t = true /\ name = remove_mp3 t.
Proof.
  induction items as [|[zone d] rest IH]; intros m H; simpl in H; [now left|].
  destruct (music_field d) as [e|t] eqn:Hmf; [now left|].
  destruct (PyStr.truthy t) eqn:Ht.
  - apply IH in H. destruct H as [H|(data & t' & Hin & H1 & H2 & H3)].
    + destruct (decide (zone = z)) as [->|Hne].
      * rewrite lookup_insert_eq in H. inversion H; subst.
        right. exists d, t. repeat split; auto. apply list_elem_of_here.
      * rewrite lookup_insert_ne in H by exact Hne. now left.
    + right. exists data, t'. repeat split; auto. now apply list_elem_of_further.
  - apply IH in H. destruct H as [H|(data & t' & Hin & H1 & H2 & H3)];
      [now left|].
    right. exists data, t'. repeat split; auto. now apply list_elem_of_further.
Qed.

Lemma default_zone_music_nonempty : default_zone_music ≠ ∅.
Proof. unfold default_zone_music. apply map_non_empty_singleton. Qed.

Lemma create_zone_music_map_cases (w : World) (path : string) :
  let loaded :=
    if PyStr.truthy path && path_isfile w path
    then fst (try_load_zone_music w path ∅) else ∅ in
  (loaded = ∅ /\ create_zone_music_map w path = default_zone_music) \/
  (loaded <> ∅ /\ create_zone_music_map w path = loaded).
Proof.
  unfold create_zone_music_map, dict_truthy. simpl.
  set (loaded := if PyStr.truthy path && path_isfile w path then _ else _).
  destruct (decide (loaded = ∅)) as [He|Hne].
  - left. rewrite bool_decide_eq_true_2 by exact He. now split.
  - right. rewrite bool_decide_eq_false_2 by exact Hne. now split.
Qed.


(** C5.  Whatever the configuration source, [create_zone_music_map]
    returns a map (it has no way to raise) that is never empty; and when
    the path is empty or not a file, when opening or parsing raises, or
    when the parse stores no zone/track entry, the result is the
    single-entry fallback [{"coroTown": "CoroTown"}]. *)
Theorem create_zone_music_map_fallback (w : World) (path : string) :
  create_zone_music_map w path ≠ ∅ /\
  size default_zone_music = 1%nat /\
  (PyStr.truthy path = false \/
   path_isfile w path = false \/
   (exists e, json_load w path = inl e) \/
   fst (try_load_zone_music w path ∅) = ∅ ->
   create_zone_music_map w path = default_zone_music).
Proof.
  pose proof (create_zone_music_map_cases w path) as Hc. simpl in Hc.
  split; [|split].
  - destruct Hc as [[_ ->]|[Hne ->]]; [apply default_zone_music_nonempty|exact Hne].
  - reflexivity.
  - intros Hin. destruct Hc as [[_ Hr]|[Hne _]]; [exact Hr|].
    exfalso. apply Hne.
    destruct (PyStr.truthy path) eqn:Hp; simpl; [|reflexivity].
    destruct (path_isfile w path) eqn:Hf; simpl; [|reflexivity].
    destruct Hin as [Hin|[Hin|[[e He]|Hin]]]; try discriminate; [|exact Hin].
    unfold try_load_zone_music. now rewrite He.
Qed.

Lemma create_zone_music_map_fallback_witness :
  create_zone_music_map bare_world "maps.json" = default_zone_music.
Proof.
  apply (create_zone_music_map_fallback bare_world "maps.json").
  right; left; reflexivity.
Defined.

(** Parses that store nothing: a top-level value that is not an object,
    and an object none of whose zones names a track. *)
Lemma try_load_not_a_dict (w : World) (path : string) (j : json) :
  json_load w path = inr j ->
  (forall items, j <> JDict items) ->
  fst (try_load_zone_music w path ∅) = ∅.
Proof.
  intros Hj Hn. unfold try_load_zone_music. rewrite Hj.
  destruct j; try reflexivity. now destruct (Hn items).
Qed.

Lemma zone_loop_no_tracks (items : list (string * json)) :
  Forall (fun zd => music_field (snd zd) = inr "") items ->
  forall m, fst (zone_loop items m) = m.
Proof.
  induction 1 as [|[zone data] rest Hd _ IH]; intros m; simpl; [reflexivity|].
  simpl in Hd. rewrite Hd. simpl. apply IH.
Qed.

(** C7, as the specification states it, fails: with the fallback map, a
    zone that is not in the map and whose name ends in [.MP3] does not
    resolve to its lower-cased name. *)
Lemma resolve_track_not_spec_resolve :
  default_zone_music !! "Cave.MP3" = None /\
  resolve_track default_zone_music "Cave.MP3" = "cave" /\
  spec_resolve default_zone_music "Cave.MP3" = "cave.mp3" /\
  resolve_track default_zone_music "Cave.MP3"
    <> spec_resolve default_zone_music "Cave.MP3".
Proof.
  split; [vm_compute; reflexivity|].
  split; [vm_compute; reflexivity|].
  split; [vm_compute; reflexivity|].
  vm_compute. discriminate.
Qed.

(** C7 (amended).  Resolution takes the map entry for the zone when
    present and the lower-cased zone name otherwise, and then drops one
    trailing [.mp3]: a name that does not end in [.mp3] is returned as it
    is, a name [stem.mp3] is returned as [stem]. *)
Theorem resolve_track_spec (zone_music_map : gmap string string)
    (zone_name : string) :
  let picked := spec_resolve zone_music_map zone_name in
  resolve_track zone_music_map zone_name = remove_mp3 picked /\
  (PyStr.endswith picked ".mp3" = false ->
   resolve_track zone_music_map zone_name = picked) /\
  (forall stem, picked = (stem ++ ".mp3")%string ->
   resolve_track zone_music_map zone_name = stem).
Proof.
  intros picked.
  assert (H : resolve_track zone_music_map zone_name = remove_mp3 picked).
  { unfold resolve_track, picked, spec_resolve.
    now destruct (zone_music_map !! zone_name). }
  split; [exact H|split].
  - intros Hn. rewrite H. now apply remove_mp3_other.
  - intros stem ->. rewrite H. apply remove_mp3_stem.
Qed.

Lemma resolve_track_spec_witness :
  resolve_track {[ "town" := "Theme" ]} "town"
    = spec_resolve {[ "town" := "Theme" ]} "town" /\
  resolve_track ∅ "Cave.MP3" = "cave".
Proof.
  split.
  - apply (proj1 (proj2 (resolve_track_spec {[ "town" := "Theme" ]} "town"))).
    vm_compute. reflexivity.
  - apply (proj2 (proj2 (resolve_track_spec ∅ "Cave.MP3")) "cave").
    reflexivity.
Defined.

(** C9.  For a configuration in the documented format (every zone maps
    to an object whose [music], if any, is a string) that contains the
    entry ["town": {"music": "Theme.mp3"}], the zone [town] resolves to
    the track [Theme]; and, for any parsed object at all, every name the
    loaded map stores is either the fallback entry or the stripped [music]
    string of its zone with a trailing [.mp3] removed. *)
Theorem create_zone_music_map_strips_mp3 (w : World) (path : string)
    (items : list (string * json)) :
  PyStr.truthy path = true ->
  path_isfile w path = true ->
  json_load w path = inr (JDict items) ->
  (config_ok items ->
   NoDup (map fst items) ->
   forall fields, ("town", JDict fields) ∈ items ->
     dict_get fields "music" = Some (JStr "Theme.mp3") ->
     create_zone_music_map w path !! "town" = Some "Theme" /\
     resolve_track (create_zone_music_map w path) "town" = "Theme") /\
  (forall zone name, create_zone_music_map w path !! zone = Some name ->
     (zone = "coroTown" /\ name = "CoroTown") \/
     exists fields music, (zone, JDict fields) ∈ items /\
       dict_get fields "music" = Some (JStr music) /\
       name = remove_mp3 (PyStr.strip music)).
Proof.
  intros Hp Hf Hj.
  pose proof (create_zone_music_map_cases w path) as Hc. simpl in Hc.
  rewrite Hp, Hf in Hc. simpl in Hc.
  unfold try_load_zone_music in Hc. rewrite Hj in Hc.
  split.
  - intros Hok Hnd fields Hin Hm.
    assert (Hl : fst (zone_loop items ∅) !! "town" = Some "Theme").
    { change (Some "Theme") with (Some (remove_mp3 "Theme.mp3")).
      apply (zone_loop_lookup_in items "town" (JDict fields)); auto.
      simpl. now rewrite Hm. }
    destruct Hc as [[He _]|[_ Hr]].
    + rewrite He in Hl. now rewrite lookup_empty in Hl.
    + rewrite Hr. split; [exact Hl|].
      unfold resolve_track. now rewrite Hl.
  - intros zone name Hl. destruct Hc as [[_ Hr]|[_ Hr]]; rewrite Hr in Hl.
    + left. unfold default_zone_music in Hl.
      apply lookup_singleton_Some in Hl. destruct Hl; now subst.
    + right. apply zone_loop_lookup_inv in Hl.
      destruct Hl as [Hl|(data & t & Hin & Hmf & Ht & Hn)];
        [now rewrite lookup_empty in Hl|].
      destruct data as [| | | | |fields]; simpl in Hmf; try discriminate.
      destruct (dict_get fields "music") as [[| | |music| |]|] eqn:Hg;
        try discriminate.
      * exists fields, music. inversion Hmf; subst. auto.
      * inversion Hmf; subst. discriminate.
Qed.

Lemma create_zone_music_map_strips_mp3_witness :
  create_zone_music_map demo_world "maps.json" !! "town" = Some "Theme" /\
  resolve_track (create_zone_music_map demo_world "maps.json") "town" = "Theme".
Proof.
  assert (Hnd : NoDup (map fst demo_config)).
  { apply NoDup_cons; split.
    - intros H. apply list_elem_of_singleton in H. discriminate.
    - apply NoDup_singleton. }
  assert (Hok : config_ok demo_config).
  { repeat constructor. }
  apply (proj1 (create_zone_music_map_strips_mp3 demo_world "maps.json"
                  demo_config eq_refl eq_refl eq_refl) Hok Hnd
           [("music", JStr "Theme.mp3")]).
  - apply list_elem_of_further, list_elem_of_here.
  - reflexivity.
Defined.

(** ** The idle variant choice *)

Lemma choose_idle_option_cases (u : Q) :
  choose_idle_option u =
    if Qle_bool (inject_Z 5) (u * inject_Z 9)
    then if Qle_bool (inject_Z 7) (u * inject_Z 9) then 3%Z else 2%Z
    else 1%Z.
Proof.
  unfold choose_idle_option, Random.choices.
  cbn -[Qle_bool Qmult inject_Z].
  change (0 + 5 + 2 + 2)%Z with 9%Z. change (0 + 5 + 2)%Z with 7%Z.
  change (0 + 5)%Z with 5%Z.
  change (Qle_bool (inject_Z 9) 0) with false. cbn -[Qle_bool Qmult inject_Z].
  destruct (Qle_bool (inject_Z 5) (u * inject_Z 9));
    [destruct (Qle_bool (inject_Z 7) (u * inject_Z 9))|]; reflexivity.
Qed.

Lemma Qle_bool_false (a b : Q) : Qle_bool a b = false <-> (b < a)%Q.
Proof.
  split; intros H.
  - apply Qnot_le_lt. intros Hle. apply Qle_bool_iff in Hle. congruence.
  - destruct (Qle_bool a b) eqn:E; [|reflexivity].
    apply Qle_bool_iff in E. exfalso. apply (Qlt_not_le _ _ H E).
Qed.

(** C1.  [choose_idle_option] takes no controller and returns one of 1, 2
    and 3, decided by the uniform draw alone: 1 exactly on [0, 5/9), 2 on
    [5/9, 7/9) and 3 on [7/9, 1).  The three variants therefore come with
    probabilities 5/9, 2/9 and 2/9 (the weights are 5, 2, 2), not with the
    50%, 25%, 25% that the docstring and the specification announce. *)
Theorem choose_idle_option_law (u : Q) :
  (choose_idle_option u = 1%Z <-> (u < 5 # 9)%Q) /\
  (choose_idle_option u = 2%Z <-> (5 # 9 <= u)%Q /\ (u < 7 # 9)%Q) /\
  (choose_idle_option u = 3%Z <-> (7 # 9 <= u)%Q) /\
  (choose_idle_option u = 1%Z \/ choose_idle_option u = 2%Z \/
   choose_idle_option u = 3%Z).
Proof.
  rewrite choose_idle_option_cases.
  destruct (Qle_bool (inject_Z 5) (u * inject_Z 9)) eqn:H5;
    [destruct (Qle_bool (inject_Z 7) (u * inject_Z 9)) eqn:H7|].
  all: try apply Qle_bool_iff in H5; try apply Qle_bool_false in H5;
       try apply Qle_bool_iff in H7; try apply Qle_bool_false in H7.
  all: unfold inject_Z in *.
  all: repeat split; intros; try discriminate; try reflexivity; try lra.
  all: auto.
Qed.

(** A draw between 1/2 and 5/9 still yields variant 1. *)
Example choose_idle_option_at_052 : choose_idle_option (52 # 100) = 1%Z.
Proof. reflexivity. Qed.

(** Over 36 equally spaced draws the variants come up 20, 8 and 8 times;
    weights of 50/25/25 would give 18, 9 and 9. *)
Example frequency_36 :
  (frequency 36 1, frequency 36 2, frequency 36 3) = (20, 8, 8)%nat.
Proof. vm_compute. reflexivity. Qed.

(** ** The playback controller *)

Section ControllerFacts.

Context {V : Type} {F : FloatOps V}.
Variable w : World.

(** *** What each method leaves behind *)

Lemma load_base_track_eq (self : MusicManager V) :
  load_base_track w self =
    (Done tt,
     match located_file w self (base self) with
     | Some file =>
         if sound_loads w file then set_main_sound (Some (SoundOf file)) self
         else self
     | None => self
     end).
Proof.
  unfold load_base_track, mixer_Sound, located_file, get_full_path,
    find_music_file_case_insensitive.
  py_unfold. destruct self.
  repeat py_step; try reflexivity; try congruence.
Qed.

Lemma play_idle_track_eq (name : string) (self : MusicManager V) :
  play_idle_track w name self = (Done tt, idle_track_result w name self).
Proof.
  unfold play_idle_track, start_idle_sound, mixer_Sound, idle_channel_call,
    idle_track_result, located_file, get_full_path,
    find_music_file_case_insensitive.
  py_unfold. destruct self as [? ? ? ? ? [ic|] ? ? ? ? ? ? ? ? ?].
  all: repeat py_step; try reflexivity; try congruence.
Qed.

Lemma fade_loop_spec (n : nat) (step : V) :
  forall (self : MusicManager V) (ch : Channel V),
    music_channel self = Some ch ->
    exists v ch' vols,
      fade_loop n step self =
        (Done tt,
         set_current_volume v
           (set_music_channel (Some ch')
              (set_mixer_calls
                 (mixer_calls self ++ map (SetVolume BaseLane) vols) self))) /\
      chan_playing ch' = chan_playing ch /\ length vols = n.
Proof.
  induction n as [|n IH]; intros self ch Hch.
  - exists (current_volume self), ch, []. repeat split.
    cbn. f_equal. destruct self; cbn in *. subst. now rewrite app_nil_r.
  - cbn [fade_loop]. unfold music_channel_call. py_unfold. cbn. rewrite Hch.
    set (v1 := py_max (f_lit 0)
                 (py_min (f_lit 1) (f_add (current_volume self) step))).
    match goal with |- context [fade_loop n step ?s] => set (self1 := s) end.
    destruct (IH self1 (chan_set_volume v1 ch) eq_refl)
      as (v & ch' & vols & He & Hp & Hl).
    exists v, ch', (v1 :: vols). rewrite He.
    split; [|split; [exact Hp|cbn; now rewrite Hl]].
    f_equal. subst self1. destruct self. cbn. now rewrite <- app_assoc.
Qed.

Lemma fade_to_eq (target : V) (self : MusicManager V) (ch : Channel V) :
  music_channel self = Some ch ->
  fade_to target self =
    fade_loop 10 (f_div (f_sub target (current_volume self)) (f_of_int 10)) self.
Proof.
  intros Hch. unfold fade_to. py_unfold. rewrite Hch. reflexivity.
Qed.

(** A fade on an initialised base channel returns normally; it changes
    [current_volume] and the volume of the base channel and makes ten
    [set_volume] calls on the base lane, nothing else. *)
Lemma fade_to_spec (target : V) (self : MusicManager V) (ch : Channel V) :
  music_channel self = Some ch ->
  exists v ch' vols,
    fade_to target self =
      (Done tt,
       set_current_volume v
         (set_music_channel (Some ch')
            (set_mixer_calls
               (mixer_calls self ++ map (SetVolume BaseLane) vols) self))) /\
    chan_playing ch' = chan_playing ch /\ length vols = 10%nat.
Proof.
  intros Hch. rewrite (fade_to_eq target self ch Hch).
  now apply fade_loop_spec.
Qed.

(** The idle-exit path of [reset_to_base_audio]. *)
Lemma reset_to_base_audio_spec (self : MusicManager V) (ch : Channel V) :
  is_idle_version self = true ->
  music_channel self = Some ch ->
  exists self' pre vols,
    reset_to_base_audio self = (Done tt, self') /\
    current_volume self' = normal_volume self /\
    normal_volume self' = normal_volume self /\
    is_idle_version self' = false /\
    mixer_calls self' = mixer_calls self ++ pre ++ map (SetVolume BaseLane) vols /\
    length vols = 10%nat.
Proof.
  intros Hidle Hch.
  destruct self as [? ? ? ? ? ich msnd ? ? ? ? ? ? ? ?];
    cbn in Hidle, Hch; subst.
  unfold reset_to_base_audio, play_base_track, music_channel_get_busy,
    idle_channel_call, music_channel_call.
  py_unfold.
  destruct ich as [[[ics|] icv]|], ch as [[cs|] cv], msnd as [ms|]; cbn.
  all: match goal with |- context [fade_to ?t ?s] =>
         destruct (fade_to_spec t s _ eq_refl) as (v & ch' & vols & He & _ & Hl);
         rewrite He; cbn
       end.
  all: do 3 eexists; split; [reflexivity|]; cbn; repeat split; try exact Hl.
  all: first [ apply calls_then0 | apply calls_then1 | apply calls_then2
             | apply calls_then3 ].
Qed.

Lemma reset_to_base_audio_active (self : MusicManager V) :
  is_idle_version self = false -> reset_to_base_audio self = (Done tt, self).
Proof. intros Hi. unfold reset_to_base_audio. py_unfold. now rewrite Hi. Qed.

Lemma trigger_idle_audio_uninitialised (self : MusicManager V) (idle_option : Z) :
  music_channel self = None ->
  trigger_idle_audio w idle_option self = (Done tt, self).
Proof.
  intros H. unfold trigger_idle_audio. py_unfold. now rewrite H.
Qed.

Lemma trigger_idle_audio_muffle (self : MusicManager V) (ch : Channel V) :
  music_channel self = Some ch ->
  exists v ch' vols,
    trigger_idle_audio w 1 self =
      (Done tt,
       set_is_idle_version true
         (set_current_volume v
            (set_music_channel (Some ch')
               (set_mixer_calls
                  (mixer_calls self ++ map (SetVolume BaseLane) vols) self)))) /\
    chan_playing ch' = chan_playing ch /\ length vols = 10%nat.
Proof.
  intros Hch.
  destruct (fade_to_spec (muffled_volume self) self ch Hch)
    as (v & ch' & vols & He & Hp & Hl).
  exists v, ch', vols. split; [|now split].
  unfold trigger_idle_audio. py_unfold. rewrite Hch. cbn. now rewrite He.
Qed.

Lemma trigger_idle_audio_track (self : MusicManager V) (ch : Channel V)
    (idle_option : Z) :
  idle_option = 2%Z \/ idle_option = 3%Z ->
  music_channel self = Some ch ->
  trigger_idle_audio w idle_option self =
    (Done tt,
     set_is_idle_version true
       (idle_track_result w (idle_track_name idle_option) self)).
Proof.
  intros Ho Hch. unfold trigger_idle_audio. py_unfold. rewrite Hch.
  destruct Ho as [-> | ->]; cbn; now rewrite play_idle_track_eq.
Qed.

Lemma trigger_idle_audio_other (self : MusicManager V) (ch : Channel V)
    (idle_option : Z) :
  idle_option <> 1%Z -> idle_option <> 2%Z -> idle_option <> 3%Z ->
  music_channel self = Some ch ->
  trigger_idle_audio w idle_option self = (Done tt, set_is_idle_version true self).
Proof.
  intros H1 H2 H3 Hch. unfold trigger_idle_audio. py_unfold. rewrite Hch.
  apply Z.eqb_neq in H1, H2, H3. now rewrite H1, H2, H3.
Qed.

(** [trigger_idle_audio] returns normally for every option. *)
Lemma trigger_idle_audio_returns (self : MusicManager V) (idle_option : Z) :
  fst (trigger_idle_audio w idle_option self) = Done tt.
Proof.
  destruct (music_channel self) as [ch|] eqn:Hch;
    [|now rewrite trigger_idle_audio_uninitialised].
  destruct (decide (idle_option = 1%Z)) as [->|H1].
  { destruct (trigger_idle_audio_muffle self ch Hch) as (v & c & l & -> & _).
    reflexivity. }
  destruct (decide (idle_option = 2%Z)) as [->|H2].
  { now rewrite (trigger_idle_audio_track self ch 2) by auto. }
  destruct (decide (idle_option = 3%Z)) as [->|H3].
  { now rewrite (trigger_idle_audio_track self ch 3) by auto. }
  now rewrite (trigger_idle_audio_other self ch).
Qed.

(** A separate-track option whose track has no file leaves the idle lane
    stopped. *)
Lemma missing_idle_track_is_silent (self : MusicManager V) (mc ic : Channel V)
    (idle_option : Z) :
  idle_option = 2%Z \/ idle_option = 3%Z ->
  music_channel self = Some mc ->
  idle_channel self = Some ic ->
  located_file w self (idle_track_name idle_option) = None ->
  exists self',
    trigger_idle_audio w idle_option self = (Done tt, self') /\
    idle_channel self' = Some (chan_stop ic) /\
    mixer_calls self' = mixer_calls self ++ [Stop IdleLane].
Proof.
  intros Ho Hmc Hic Hloc.
  rewrite (trigger_idle_audio_track self mc idle_option Ho Hmc).
  unfold idle_track_result. rewrite Hloc, Hic.
  eexists. split; [reflexivity|]. split; reflexivity.
Qed.

(** *** Zone switches *)

(** C6.  When the resolved track of the zone is the current base track,
    [set_zone_music] returns normally and leaves the controller exactly as
    it was: no attribute changes, the channels are as before, and no call
    (no stop, no play) is added to the history of the mixer. *)
Theorem set_zone_music_same_track (self : MusicManager V) (zone_name : string) :
  resolve_track (zone_music_map self) zone_name = base self ->
  set_zone_music w zone_name self = (Done tt, self).
Proof.
  intros H. unfold set_zone_music. py_unfold. rewrite H, String.eqb_refl.
  reflexivity.
Qed.

Lemma set_zone_music_switch (self : MusicManager V) (zone_name : string) :
  resolve_track (zone_music_map self) zone_name <> base self ->
  set_zone_music w zone_name self = (Done tt, zone_switch_result w zone_name self).
Proof.
  intros Hne. apply String.eqb_neq in Hne.
  unfold set_zone_music. py_unfold. rewrite Hne. cbn [negb].
  unfold stop_base_track, play_base_track, music_channel_call,
    zone_switch_result.
  py_unfold.
  destruct self as [? zmap ? ? [mc|] ? msnd ? ? ? ? ? ? ? ?]; cbn in *.
  all: rewrite load_base_track_eq.
  all: destruct (located_file w _ _) as [file|];
    [destruct (sound_loads w file)|]; cbn.
  all: try reflexivity.
  all: destruct msnd as [s'|]; reflexivity.
Qed.

(** [set_zone_music] returns normally for every zone. *)
Lemma set_zone_music_returns (self : MusicManager V) (zone_name : string) :
  fst (set_zone_music w zone_name self) = Done tt.
Proof.
  destruct (decide (resolve_track (zone_music_map self) zone_name = base self))
    as [He|Hne].
  - unfold set_zone_music. py_unfold. now rewrite He, String.eqb_refl.
  - now rewrite set_zone_music_switch.
Qed.

(** C2 (amended).  For a zone whose resolved track differs from the
    current base track, [set_zone_music] returns normally with the new
    track as [base]; when a main sound is loaded once the load attempt is
    over, it clears [is_idle_version] and sets [current_volume] to
    [normal_volume], whatever the idle state was; when no main sound is
    loaded, the idle flag and [current_volume] stay as they were. *)
Theorem set_zone_music_resets_when_loaded (self : MusicManager V)
    (zone_name : string) :
  resolve_track (zone_music_map self) zone_name <> base self ->
  exists self',
    set_zone_music w zone_name self = (Done tt, self') /\
    base self' = resolve_track (zone_music_map self) zone_name /\
    normal_volume self' = normal_volume self /\
    (is_some (main_sound self') = true ->
       is_idle_version self' = false /\
       current_volume self' = normal_volume self') /\
    (main_sound self' = None ->
       is_idle_version self' = is_idle_version self /\
       current_volume self' = current_volume self).
Proof.
  intros Hne. rewrite (set_zone_music_switch self zone_name Hne).
  eexists. split; [reflexivity|].
  unfold zone_switch_result.
  destruct self as [? zmap ? ? mch ? msnd ? ? ? ? ? ? ? ?].
  destruct (located_file w _ _) as [file|];
    [destruct (sound_loads w file)|]; cbn.
  all: try (destruct msnd as [s'|]; cbn).
  all: destruct mch as [mc|]; cbn.
  all: repeat split; intros; try discriminate; reflexivity.
Qed.

(** C3 (where the code departs from it).  When the track a zone resolves
    to has no file, even after the case-insensitive and underscore/space
    retry, while an earlier track is still loaded, [set_zone_music]
    returns normally but the base lane does not stay silent: it is
    stopped and then started again, looping the earlier sound at
    [current_volume], under the new track name. *)
Theorem set_zone_music_missing_track_replays (self : MusicManager V)
    (zone_name : string) (s : Sound) (mc : Channel V) :
  let track_name := resolve_track (zone_music_map self) zone_name in
  track_name <> base self ->
  located_file w self track_name = None ->
  main_sound self = Some s ->
  music_channel self = Some mc ->
  exists self',
    set_zone_music w zone_name self = (Done tt, self') /\
    base self' = track_name /\
    main_sound self' = Some s /\
    music_channel self' =
      Some {| chan_playing := Some s; chan_volume := current_volume self |} /\
    mixer_calls self' =
      mixer_calls self ++
        [Stop BaseLane; Play BaseLane s; SetVolume BaseLane (current_volume self)].
Proof.
  intros track_name Hne Hloc Hs Hmc. subst track_name.
  rewrite (set_zone_music_switch self zone_name Hne).
  eexists. split; [reflexivity|].
  unfold zone_switch_result. rewrite Hloc, Hmc.
  destruct self as [? zmap ? ? ? ? ? ? ? ? ? ? ? ? ?]; cbn in *. subst. cbn.
  repeat split. now rewrite <- !app_assoc.
Qed.

(** *** Idle and resume *)

(** C4.  From the active state at normal volume, [trigger_idle_audio(1)]
    followed by [reset_to_base_audio()] both return normally and leave
    [current_volume] equal to [normal_volume], exactly, whatever the
    rounding of the fade arithmetic. *)
Theorem muffle_then_resume (self : MusicManager V) :
  is_idle_version self = false ->
  current_volume self = normal_volume self ->
  exists self1 self2,
    trigger_idle_audio w 1 self = (Done tt, self1) /\
    reset_to_base_audio self1 = (Done tt, self2) /\
    current_volume self2 = normal_volume self /\
    normal_volume self2 = normal_volume self /\
    is_idle_version self2 = false.
Proof.
  intros Hi Hv. destruct (music_channel self) as [ch|] eqn:Hch.
  - destruct (trigger_idle_audio_muffle self ch Hch)
      as (v & ch' & vols & He & _ & _).
    rewrite He.
    match goal with |- context [(Done tt, ?s)] => set (self1 := s) end.
    destruct (reset_to_base_audio_spec self1 ch')
      as (self2 & pre & vols' & Hr & Hcv & Hnv & Hi2 & _); [reflexivity..|].
    exists self1, self2. auto.
  - exists self, self. rewrite trigger_idle_audio_uninitialised by exact Hch.
    rewrite reset_to_base_audio_active by exact Hi. auto.
Qed.

(** C8.  [trigger_idle_audio] with option 2 or 3 returns normally, leaves
    the base channel (so also its volume) and [current_volume] as they
    were, and calls the idle lane only.  With both channels initialised it
    sets the idle flag and first stops the idle lane; and when the fixed
    track ([idleDaniel] for 2, [idle_track_2] for 3) has a file that
    decodes, the idle lane ends up looping it at [muffled_volume]. *)
Theorem trigger_idle_separate_track (self : MusicManager V) (idle_option : Z) :
  idle_option = 2%Z \/ idle_option = 3%Z ->
  exists self' calls,
    trigger_idle_audio w idle_option self = (Done tt, self') /\
    music_channel self' = music_channel self /\
    current_volume self' = current_volume self /\
    mixer_calls self' = mixer_calls self ++ calls /\
    Forall on_idle_lane calls /\
    (forall mc ic,
       music_channel self = Some mc -> idle_channel self = Some ic ->
       is_idle_version self' = true /\
       hd_error calls = Some (Stop IdleLane) /\
       forall file,
         located_file w self (idle_track_name idle_option) = Some file ->
         sound_loads w file = true ->
         idle_channel self' =
           Some {| chan_playing := Some (SoundOf file);
                   chan_volume := muffled_volume self |} /\
         calls = [Stop IdleLane; Play IdleLane (SoundOf file);
                  SetVolume IdleLane (muffled_volume self)]).
Proof.
  intros Ho. destruct (music_channel self) as [mc|] eqn:Hmc.
  - rewrite (trigger_idle_audio_track self mc idle_option Ho Hmc).
    unfold idle_track_result.
    destruct self as [? ? ? ? ? ich ? ? ? ? ? ? ? ? ?]; cbn in Hmc; subst.
    destruct ich as [ic|];
      destruct (located_file w _ _) as [file|];
      [destruct (sound_loads w file) eqn:Hl| |destruct (sound_loads w file) eqn:Hl|].
    all: do 2 eexists; split; [reflexivity|]; cbn.
    all: split; [reflexivity|]; split; [reflexivity|].
    all: split;
      [first [ apply calls_app3 | apply calls_app1 | symmetry; apply app_nil_r ]|].
    all: split; [repeat constructor|].
    all: intros mc0 ic0 _ Hic; try discriminate.
    all: split; [reflexivity|]; split; [reflexivity|].
    all: intros file0 Hf Hs; try discriminate.
    all: inversion Hf; subst; try congruence.
    all: split; reflexivity.
  - exists self, []. rewrite trigger_idle_audio_uninitialised by exact Hmc.
    rewrite app_nil_r. repeat split; auto; intros; discriminate.
Qed.

(** C10.  For an idle option other than 1, 2 and 3, on an initialised
    base channel, [trigger_idle_audio] changes nothing but the idle flag,
    which it sets: no channel is called and no volume moves.  A following
    [reset_to_base_audio()], which does nothing on an active controller,
    then runs its idle-exit path: it fades (ten [set_volume] calls on the
    base lane), sets [current_volume] to [normal_volume] and clears the
    flag. *)
Theorem trigger_idle_unknown_option (self : MusicManager V) (ch : Channel V)
    (idle_option : Z) :
  idle_option <> 1%Z -> idle_option <> 2%Z -> idle_option <> 3%Z ->
  music_channel self = Some ch ->
  trigger_idle_audio w idle_option self = (Done tt, set_is_idle_version true self) /\
  (is_idle_version self = false -> reset_to_base_audio self = (Done tt, self)) /\
  exists self' pre vols,
    reset_to_base_audio (set_is_idle_version true self) = (Done tt, self') /\
    is_idle_version self' = false /\
    current_volume self' = normal_volume self /\
    mixer_calls self' = mixer_calls self ++ pre ++ map (SetVolume BaseLane) vols /\
    length vols = 10%nat.
Proof.
  intros H1 H2 H3 Hch. split; [now apply (trigger_idle_audio_other self ch)|].
  split; [apply reset_to_base_audio_active|].
  destruct (reset_to_base_audio_spec (set_is_idle_version true self) ch)
    as (self' & pre & vols & He & Hv & _ & Hi & Hc & Hl); [reflexivity|exact Hch|].
  exists self', pre, vols. auto.
Qed.

End ControllerFacts.

(** ** The statements at work on the sample environment *)

(** C2, as the specification states it, fails: on a controller that is
    idle and has no main sound, switching to a zone whose track has no
    file changes [base] and leaves the controller idle at the faded
    volume. *)
Lemma set_zone_music_keeps_idle_without_sound :
  resolve_track (zone_music_map idle_silent_manager) "town"
    <> base idle_silent_manager /\
  fst (set_zone_music demo_world "town" idle_silent_manager) = Done tt /\
  is_idle_version (snd (set_zone_music demo_world "town" idle_silent_manager))
    = true /\
  ~ (current_volume (snd (set_zone_music demo_world "town" idle_silent_manager))
     == normal_volume (snd (set_zone_music demo_world "town" idle_silent_manager)))%Q.
Proof.
  split; [vm_compute; discriminate|].
  split; [vm_compute; reflexivity|].
  split; [vm_compute; reflexivity|].
  vm_compute. discriminate.
Qed.

Lemma set_zone_music_resets_when_loaded_witness :
  exists self',
    set_zone_music demo_world "coroTown" idle_silent_manager = (Done tt, self') /\
    base self' = resolve_track (zone_music_map idle_silent_manager) "coroTown" /\
    normal_volume self' = normal_volume idle_silent_manager /\
    (is_some (main_sound self') = true ->
       is_idle_version self' = false /\
       current_volume self' = normal_volume self') /\
    (main_sound self' = None ->
       is_idle_version self' = is_idle_version idle_silent_manager /\
       current_volume self' = current_volume idle_silent_manager).
Proof.
  apply (set_zone_music_resets_when_loaded demo_world idle_silent_manager
           "coroTown").
  vm_compute. discriminate.
Defined.

Lemma set_zone_music_missing_track_replays_witness :
  exists self',
    set_zone_music demo_world "town" demo_manager = (Done tt, self') /\
    base self' = resolve_track (zone_music_map demo_manager) "town" /\
    main_sound self' = Some (SoundOf "music/CoroTown.mp3") /\
    music_channel self' =
      Some {| chan_playing := Some (SoundOf "music/CoroTown.mp3");
              chan_volume := current_volume demo_manager |} /\
    mixer_calls self' =
      mixer_calls demo_manager ++
        [Stop BaseLane; Play BaseLane (SoundOf "music/CoroTown.mp3");
         SetVolume BaseLane (current_volume demo_manager)].
Proof.
  apply (set_zone_music_missing_track_replays demo_world demo_manager "town"
           (SoundOf "music/CoroTown.mp3")
           {| chan_playing := Some (SoundOf "music/CoroTown.mp3");
              chan_volume := 6 # 10 |}).
  - vm_compute. discriminate.
  - vm_compute. reflexivity.
  - vm_compute. reflexivity.
  - vm_compute. reflexivity.
Defined.

Lemma muffle_then_resume_witness :
  exists self1 self2,
    trigger_idle_audio demo_world 1 demo_manager = (Done tt, self1) /\
    reset_to_base_audio self1 = (Done tt, self2) /\
    current_volume self2 = normal_volume demo_manager /\
    normal_volume self2 = normal_volume demo_manager /\
    is_idle_version self2 = false.
Proof.
  apply (muffle_then_resume demo_world demo_manager).
  - vm_compute. reflexivity.
  - vm_compute. reflexivity.
Defined.

Lemma set_zone_music_same_track_witness :
  set_zone_music demo_world "coroTown" demo_manager = (Done tt, demo_manager).
Proof.
  apply (set_zone_music_same_track demo_world demo_manager "coroTown").
  vm_compute. reflexivity.
Defined.

Lemma trigger_idle_separate_track_witness :
  exists self' calls,
    trigger_idle_audio demo_world 2 demo_manager = (Done tt, self') /\
    music_channel self' = music_channel demo_manager /\
    current_volume self' = current_volume demo_manager /\
    mixer_calls self' = mixer_calls demo_manager ++ calls /\
    Forall on_idle_lane calls /\
    (forall mc ic,
       music_channel demo_manager = Some mc ->
       idle_channel demo_manager = Some ic ->
       is_idle_version self' = true /\
       hd_error calls = Some (Stop IdleLane) /\
       forall file,
         located_file demo_world demo_manager (idle_track_name 2) = Some file ->
         sound_loads demo_world file = true ->
         idle_channel self' =
           Some {| chan_playing := Some (SoundOf file);
                   chan_volume := muffled_volume demo_manager |} /\
         calls = [Stop IdleLane; Play IdleLane (SoundOf file);
                  SetVolume IdleLane (muffled_volume demo_manager)]).
Proof.
  apply (trigger_idle_separate_track demo_world demo_manager 2).
  left. reflexivity.
Defined.

Lemma trigger_idle_unknown_option_witness :
  trigger_idle_audio demo_world 4 demo_manager
    = (Done tt, set_is_idle_version true demo_manager) /\
  (is_idle_version demo_manager = false ->
   reset_to_base_audio demo_manager = (Done tt, demo_manager)) /\
  exists self' pre vols,
    reset_to_base_audio (set_is_idle_version true demo_manager) = (Done tt, self') /\
    is_idle_version self' = false /\
    current_volume self' = normal_volume demo_manager /\
    mixer_calls self' =
      mixer_calls demo_manager ++ pre ++ map (SetVolume BaseLane) vols /\
    length vols = 10%nat.
Proof.
  apply (trigger_idle_unknown_option demo_world demo_manager
           {| chan_playing := Some (SoundOf "music/CoroTown.mp3");
              chan_volume := 6 # 10 |} 4).
  - discriminate.
  - discriminate.
  - discriminate.
  - vm_compute. reflexivity.
Defined.

(** In [demo_world] the idle track of option 2 is there and ends up
    looping on the idle lane at the muffled volume, over the base track. *)
Example idle_daniel_plays :
  idle_channel (snd (trigger_idle_audio demo_world 2 demo_manager)) =
    Some {| chan_playing := Some (SoundOf "music/idleDaniel.mp3");
            chan_volume := 2 # 10 |} /\
  music_channel (snd (trigger_idle_audio demo_world 2 demo_manager)) =
    Some {| chan_playing := Some (SoundOf "music/CoroTown.mp3");
            chan_volume := 6 # 10 |}.
Proof. split; vm_compute; reflexivity. Qed.

(** The track of option 3 has no file there: the idle lane stays silent. *)
Example idle_track_2_silent :
  trigger_idle_audio demo_world 3 demo_manager =
    (Done tt,
     set_is_idle_version true
       (record_call (Stop IdleLane)
          (set_idle_channel (Some (chan_stop fresh_channel)) demo_manager))).
Proof. vm_compute. reflexivity. Qed.

(** * Further properties *)

(** ** Looking a track up in the music folder *)

Lemma first_match_some (files : list string) (target file : string) :
  first_match files target = Some file ->
  file ∈ files /\ PyStr.lower file = target.
Proof.
  unfold first_match. intros H. apply find_some in H as [Hin Heq].
  split; [now apply list_elem_of_In | now apply String.eqb_eq].
Qed.

Lemma first_match_none (files : list string) (target : string) :
  first_match files target = None <->
  forall file, file ∈ files -> PyStr.lower file <> target.
Proof.
  unfold first_match. split.
  - intros H file Hin Heq. apply list_elem_of_In in Hin.
    apply (find_none _ _ H) in Hin. apply String.eqb_eq in Heq. congruence.
  - intros H. destruct (find _ files) as [file|] eqn:Hf; [|reflexivity].
    apply find_some in Hf as [Hin Heq].
    apply list_elem_of_In in Hin. apply String.eqb_eq in Heq.
    now destruct (H file Hin).
Qed.

Lemma first_target_match_some (folder : string) (files targets : list string)
    (p : string) :
  first_target_match folder files targets = Some p ->
  exists file target,
    file ∈ files /\ target ∈ targets /\ PyStr.lower file = target /\
    p = PyStr.path_join folder file.
Proof.
  induction targets as [|t rest IH]; simpl; [discriminate|].
  destruct (first_match files t) as [file|] eqn:Hm.
  - intros [= <-]. apply first_match_some in Hm as [Hin Hl].
    exists file, t. repeat split; auto. apply list_elem_of_here.
  - intros H. destruct (IH H) as (file & target & Hin & Ht & Hl & Hp).
    exists file, target. repeat split; auto. now apply list_elem_of_further.
Qed.

Lemma first_target_match_none (folder : string) (files targets : list string) :
  first_target_match folder files targets = None <->
  forall file, file ∈ files -> PyStr.lower file ∉ targets.
Proof.
  induction targets as [|t rest IH]; simpl.
  - split; [intros _ file _ H; now apply elem_of_nil in H | reflexivity].
  - destruct (first_match files t) as [file|] eqn:Hm.
    + split; [discriminate|]. intros H.
      apply first_match_some in Hm as [Hin Hl].
      destruct (H file Hin). rewrite Hl. apply list_elem_of_here.
    + rewrite IH. pose proof (proj1 (first_match_none files t) Hm) as Hn.
      split.
      * intros H file Hin Hc. apply elem_of_cons in Hc as [Hc|Hc].
        -- now apply (Hn file Hin).
        -- now apply (H file Hin).
      * intros H file Hin Hc. apply (H file Hin).
        now apply list_elem_of_further.
Qed.

Section FolderFacts.

Context {V : Type} {F : FloatOps V}.
Variable w : World.

Lemma find_music_file_eq (self : MusicManager V) (track_name : string) :
  find_music_file_case_insensitive w self track_name =
    if negb (path_exists w (folder self)) then None
    else
      match listdir w (folder self) with
      | Some files =>
          first_target_match (folder self) files (name_targets track_name)
      | None => None
      end.
Proof.
  unfold find_music_file_case_insensitive, name_targets. simpl.
  destruct (negb (path_exists w (folder self))); [reflexivity|].
  destruct (listdir w (folder self)) as [files|]; [|reflexivity].
  repeat match goal with
         | |- context [first_match ?f ?t] => destruct (first_match f t)
         end; reflexivity.
Qed.

(** X1.  Whatever [find_music_file_case_insensitive] returns is a file of
    the folder's listing, joined to the folder, whose lower-cased name is
    the lower-cased [track_name.mp3] or the same with underscores turned
    into blanks or blanks into underscores; and the folder exists. *)
Theorem find_music_file_found (self : MusicManager V)
    (track_name p : string) :
  find_music_file_case_insensitive w self track_name = Some p ->
  path_exists w (folder self) = true /\
  exists files file target,
    listdir w (folder self) = Some files /\
    file ∈ files /\
    target ∈ name_targets track_name /\
    PyStr.lower file = target /\
    p = PyStr.path_join (folder self) file.
Proof.
  rewrite find_music_file_eq.
  destruct (path_exists w (folder self)); cbn [negb]; [|discriminate].
  destruct (listdir w (folder self)) as [files|]; [|discriminate].
  intros H. split; [reflexivity|].
  apply first_target_match_some in H as (file & target & H1 & H2 & H3 & H4).
  exists files, file, target. auto.
Qed.

(** X2.  [find_music_file_case_insensitive] returns [None] exactly when
    the folder does not exist, or listing it raises, or no listed file
    has one of the three lower-cased names. *)
Theorem find_music_file_none_iff (self : MusicManager V)
    (track_name : string) :
  find_music_file_case_insensitive w self track_name = None <->
  path_exists w (folder self) = false \/
  listdir w (folder self) = None \/
  exists files,
    listdir w (folder self) = Some files /\
    forall file, file ∈ files ->
      PyStr.lower file ∉ name_targets track_name.
Proof.
  rewrite find_music_file_eq.
  destruct (path_exists w (folder self)); cbn [negb]; [|split; auto].
  destruct (listdir w (folder self)) as [files|].
  - rewrite first_target_match_none. split.
    + intros H. right; right. exists files. auto.
    + intros [H|[H|(files' & [= <-] & H)]]; try discriminate. exact H.
  - split; auto.
Qed.

(** X3.  A listed file whose name is [track_name.mp3] up to case is
    preferred to the underscore and blank variants: the result is then
    the first such file of the listing. *)
Theorem find_music_file_prefers_plain_name (self : MusicManager V)
    (track_name : string) (files : list string) (file : string) :
  path_exists w (folder self) = true ->
  listdir w (folder self) = Some files ->
  file ∈ files ->
  PyStr.lower file = PyStr.lower (track_name ++ ".mp3") ->
  exists file',
    find_music_file_case_insensitive w self track_name
      = Some (PyStr.path_join (folder self) file') /\
    first_match files (PyStr.lower (track_name ++ ".mp3")) = Some file' /\
    PyStr.lower file' = PyStr.lower (track_name ++ ".mp3").
Proof.
  intros He Hl Hin Hm. rewrite find_music_file_eq, He, Hl.
  cbn [negb name_targets first_target_match].
  destruct (first_match files (PyStr.lower (track_name ++ ".mp3")))
    as [file'|] eqn:Hf.
  - exists file'. repeat split. now apply first_match_some in Hf.
  - exfalso. now apply (proj1 (first_match_none _ _) Hf file Hin).
Qed.

(** X4.  The two look-ups that [load_base_track] and [play_idle_track]
    chain ([get_full_path], then the existence test and a second search)
    come down to this: the exact path [folder/name.mp3] when it exists,
    otherwise the case-insensitive match, whether or not that path passes
    the existence test. *)
Theorem located_file_order (self : MusicManager V) (name : string) :
  located_file w self name =
    let exact_path := PyStr.path_join (folder self) (name ++ ".mp3") in
    if path_exists w exact_path then Some exact_path
    else
      match find_music_file_case_insensitive w self name with
      | Some alt_path => if PyStr.truthy alt_path then Some alt_path else None
      | None => None
      end.
Proof.
  unfold located_file, get_full_path. cbv zeta.
  destruct (path_exists w (PyStr.path_join (folder self) (name ++ ".mp3")))
    eqn:He.
  - now rewrite He.
  - destruct (find_music_file_case_insensitive w self name) as [alt|];
      [|now rewrite He].
    destruct (PyStr.truthy alt) eqn:Ht; [|now rewrite He].
    destruct (path_exists w alt); reflexivity.
Qed.

End FolderFacts.

Lemma find_music_file_found_witness :
  path_exists demo_world (folder demo_manager) = true /\
  exists files file target,
    listdir demo_world (folder demo_manager) = Some files /\
    file ∈ files /\
    target ∈ name_targets "corotown" /\
    PyStr.lower file = target /\
    "music/CoroTown.mp3" = PyStr.path_join (folder demo_manager) file.
Proof.
  apply (find_music_file_found demo_world demo_manager "corotown").
  vm_compute. reflexivity.
Defined.

Lemma find_music_file_prefers_plain_name_witness :
  exists file',
    find_music_file_case_insensitive demo_world demo_manager "IDLEdaniel"
      = Some (PyStr.path_join (folder demo_manager) file') /\
    first_match ["CoroTown.mp3"; "idleDaniel.mp3"]
      (PyStr.lower ("IDLEdaniel" ++ ".mp3")) = Some file' /\
    PyStr.lower file' = PyStr.lower ("IDLEdaniel" ++ ".mp3").
Proof.
  apply (find_music_file_prefers_plain_name demo_world demo_manager
           "IDLEdaniel" ["CoroTown.mp3"; "idleDaniel.mp3"] "idleDaniel.mp3").
  - vm_compute. reflexivity.
  - vm_compute. reflexivity.
  - apply list_elem_of_further, list_elem_of_here.
  - vm_compute. reflexivity.
Defined.

(** ** Loading a configuration with odd entries *)


Lemma zone_loop_blank (items : list (string * json)) (zone : string)
    (data : json) :
  NoDup (map fst items) -> (zone, data) ∈ items ->
  music_field data = inr "" ->
  forall m, fst (zone_loop items m) !! zone = m !! zone.
Proof.
  induction items as [|[z d] rest IH]; intros Hnd Hin Hmf m;
    [now apply elem_of_nil in Hin|].
  inversion Hnd as [|? ? Hfresh Hnd']; subst.
  simpl. apply elem_of_cons in Hin as [Heq|Hin].
  - inversion Heq; subst. rewrite Hmf. simpl.
    now apply zone_loop_lookup_notin.
  - destruct (music_field d) as [e|t]; [reflexivity|].
    assert (Hne : z <> zone).
    { intros ->. apply Hfresh.
      change zone with (fst (zone, data)). now apply list_elem_of_fmap_2. }
    destruct (PyStr.truthy t).
    + rewrite (IH Hnd' Hin Hmf). now apply lookup_insert_ne.
    + now apply IH.
Qed.

Lemma default_zone_music_lookup_other (zone : string) :
  zone <> "coroTown" -> default_zone_music !! zone = None.
Proof.
  intros Hne. unfold default_zone_music. apply lookup_singleton_ne. congruence.
Qed.


(** X6.  A zone whose entry has no [music], or a [music] made of white
    space only, gets no entry in the map (keys being distinct, and apart
    from the fallback entry [coroTown]). *)
Theorem create_zone_music_map_skips_blank (w : World) (path : string)
    (items : list (string * json)) (zone : string) (data : json) :
  PyStr.truthy path = true ->
  path_isfile w path = true ->
  json_load w path = inr (JDict items) ->
  NoDup (map fst items) ->
  (zone, data) ∈ items ->
  music_field data = inr "" ->
  zone <> "coroTown" ->
  create_zone_music_map w path !! zone = None.
Proof.
  intros Hp Hf Hj Hnd Hin Hmf Hne.
  pose proof (create_zone_music_map_cases w path) as Hc. simpl in Hc.
  rewrite Hp, Hf in Hc. simpl in Hc.
  unfold try_load_zone_music in Hc. rewrite Hj in Hc.
  destruct Hc as [[_ ->]|[_ ->]].
  - now apply default_zone_music_lookup_other.
  - now rewrite (zone_loop_blank items zone data).
Qed.


Example lake_is_dropped :
  create_zone_music_map (world_with_config broken_config) "maps.json"
    = {[ "town" := "Theme" ]}.
Proof. vm_compute. reflexivity. Qed.

Lemma create_zone_music_map_skips_blank_witness :
  create_zone_music_map (world_with_config blank_config) "maps.json" !! "cave"
    = None.
Proof.
  apply (create_zone_music_map_skips_blank (world_with_config blank_config)
           "maps.json" blank_config "cave" (JDict [("music", JStr "   ")])).
  - reflexivity.
  - reflexivity.
  - reflexivity.
  - apply NoDup_cons; split.
    + intros H. apply list_elem_of_singleton in H. discriminate.
    + apply NoDup_singleton.
  - apply list_elem_of_further, list_elem_of_here.
  - reflexivity.
  - discriminate.
Defined.

(** ** The controller over time *)

Lemma last_cons_default {A} (a d : A) (l : list A) :
  List.last (a :: l) d = List.last l a.
Proof.
  revert a d. induction l as [|b l IH]; intros a d; [reflexivity|].
  change (List.last (a :: b :: l) d) with (List.last (b :: l) d).
  now rewrite !IH.
Qed.

Lemma last_nonempty_default {A} (d d' : A) (l : list A) :
  l <> [] -> List.last l d = List.last l d'.
Proof.
  destruct l as [|a l]; [congruence|]. intros _.
  now rewrite !last_cons_default.
Qed.

Lemma last_in_or_default {A} (P : A -> Prop) (d : A) (l : list A) :
  Forall P l -> P d -> P (List.last l d).
Proof.
  intros Hl. revert d. induction Hl as [|a l Ha _ IH]; intros d Hd; [exact Hd|].
  rewrite last_cons_default. now apply IH.
Qed.

Lemma last_in_nonempty {A} (P : A -> Prop) (d : A) (l : list A) :
  Forall P l -> l <> [] -> P (List.last l d).
Proof.
  intros Hl Hne. destruct Hl as [|a l Ha Hl]; [congruence|].
  rewrite last_cons_default. now apply last_in_or_default.
Qed.

Section TimeFacts.

Context {V : Type} {F : FloatOps V}.
Variable w : World.

Lemma fade_volumes_S (n : nat) (step cv : V) :
  fade_volumes (S n) step cv =
    py_max (f_lit 0) (py_min (f_lit 1) (f_add cv step))
    :: fade_volumes n step
         (py_max (f_lit 0) (py_min (f_lit 1) (f_add cv step))).
Proof. reflexivity. Qed.

Lemma fade_volumes_length (n : nat) (step cv : V) :
  length (fade_volumes n step cv) = n.
Proof.
  revert cv. induction n as [|n IH]; intros cv; [reflexivity|].
  rewrite fade_volumes_S. cbn [length]. now rewrite IH.
Qed.

Lemma fade_loop_trace (n : nat) (step : V) :
  forall (self : MusicManager V) (ch : Channel V),
    music_channel self = Some ch ->
    fade_loop n step self =
      (Done tt, fade_result (fade_volumes n step (current_volume self)) ch self).
Proof.
  induction n as [|n IH]; intros self ch Hch.
  - cbn. unfold pass, py_ret, fade_result. f_equal.
    destruct self as [? ? ? ? mch ? ? ? ? ? ? ? ? ? ?], ch; cbn in *.
    subst. now rewrite app_nil_r.
  - cbn [fade_loop]. unfold music_channel_call. py_unfold. cbn. rewrite Hch.
    set (v1 := py_max (f_lit 0)
                 (py_min (f_lit 1) (f_add (current_volume self) step))).
    match goal with |- context [fade_loop n step ?s] => set (self1 := s) end.
    rewrite (IH self1 (chan_set_volume v1 ch) eq_refl).
    f_equal. subst self1. unfold fade_result.
    rewrite fade_volumes_S. fold v1.
    rewrite !last_cons_default.
    destruct self as [? ? ? ? mch ? ? ? ? ? ? ? ? ? ?]. cbn.
    now rewrite <- app_assoc.
Qed.

Lemma fade_to_trace (target : V) (self : MusicManager V) (ch : Channel V) :
  music_channel self = Some ch ->
  fade_to target self =
    (Done tt,
     fade_result
       (fade_volumes 10
          (f_div (f_sub target (current_volume self)) (f_of_int 10))
          (current_volume self))
       ch self).
Proof.
  intros Hch. rewrite (fade_to_eq target self ch Hch).
  now apply fade_loop_trace.
Qed.


(** *** Fades *)

(** X7.  On an initialised base channel [fade_to] returns normally after
    exactly ten [set_volume] calls on the base lane.  The base lane keeps
    the sound it had, its volume ends equal to [current_volume] (the last
    value set), and nothing else moves: idle lane, sounds, [base], the
    idle flag and the fixed settings are as before. *)
Theorem fade_to_frame (target : V) (self : MusicManager V) (ch : Channel V) :
  music_channel self = Some ch ->
  exists self' vols,
    fade_to target self = (Done tt, self') /\
    length vols = 10%nat /\
    mixer_calls self' = mixer_calls self ++ map (SetVolume BaseLane) vols /\
    current_volume self' = List.last vols (current_volume self) /\
    music_channel self' =
      Some {| chan_playing := chan_playing ch;
              chan_volume := current_volume self' |} /\
    idle_channel self' = idle_channel self /\
    main_sound self' = main_sound self /\
    idle_sound self' = idle_sound self /\
    base self' = base self /\
    is_idle_version self' = is_idle_version self /\
    same_setup self self'.
Proof.
  intros Hch. rewrite (fade_to_trace target self ch Hch).
  set (vols := fade_volumes 10 _ _).
  assert (Hl : length vols = 10%nat) by apply fade_volumes_length.
  clearbody vols.
  exists (fade_result vols ch self), vols.
  split; [reflexivity|]. split; [exact Hl|].
  destruct self as [? ? ? ? ? ? ? ? ? ? cv ? ? ? ?]. cbn.
  split; [reflexivity|]. split; [reflexivity|]. split; [|repeat split].
  f_equal. f_equal. apply last_nonempty_default.
  intros ->. discriminate.
Qed.

Section Ordered.

(** What the clamp needs of the comparison; floats meet both. *)
Hypothesis ltb_asym : forall a b : V, f_ltb a b = true -> f_ltb b a = false.
Hypothesis ltb_0_1 : f_ltb (f_lit 0) (f_lit 1) = true.

Lemma clamp_in_unit_range (x : V) :
  in_unit_range (py_max (f_lit 0) (py_min (f_lit 1) x)).
Proof.
  unfold in_unit_range, py_max, py_min.
  destruct (f_ltb x (f_lit 1)) eqn:Hx1.
  - destruct (f_ltb (f_lit 0) x) eqn:H0x.
    + split; [now apply ltb_asym | now apply ltb_asym].
    + split; [|now apply ltb_asym].
      destruct (f_ltb (f_lit 0) (f_lit 0)) eqn:H00; [|reflexivity].
      now rewrite (ltb_asym _ _ H00) in H00.
  - rewrite ltb_0_1. split; [now apply ltb_asym|].
    destruct (f_ltb (f_lit 1) (f_lit 1)) eqn:H11; [|reflexivity].
    now rewrite (ltb_asym _ _ H11) in H11.
Qed.

Lemma fade_volumes_in_unit_range (n : nat) (step cv : V) :
  Forall in_unit_range (fade_volumes n step cv).
Proof.
  revert cv. induction n as [|n IH]; intros cv; [constructor|].
  rewrite fade_volumes_S. constructor; [apply clamp_in_unit_range | apply IH].
Qed.

(** X8.  With a comparison that is asymmetric and puts [0.0] below [1.0]
    (as the one of floats is), every volume a fade passes to the mixer,
    the final [current_volume] and the final volume of the base channel
    are neither below [0.0] nor above [1.0], whatever the target and the
    starting volume. *)
Theorem fade_to_in_unit_range (target : V) (self : MusicManager V)
    (ch : Channel V) :
  music_channel self = Some ch ->
  exists self' vols,
    fade_to target self = (Done tt, self') /\
    mixer_calls self' = mixer_calls self ++ map (SetVolume BaseLane) vols /\
    Forall in_unit_range vols /\
    in_unit_range (current_volume self') /\
    (forall ch', music_channel self' = Some ch' ->
       in_unit_range (chan_volume ch')).
Proof.
  intros Hch. rewrite (fade_to_trace target self ch Hch).
  set (vols := fade_volumes 10 _ _).
  assert (Hl : length vols = 10%nat) by apply fade_volumes_length.
  assert (Hr : Forall in_unit_range vols) by apply fade_volumes_in_unit_range.
  assert (Hne : vols <> []) by (intros E; rewrite E in Hl; discriminate).
  clearbody vols.
  exists (fade_result vols ch self), vols.
  split; [reflexivity|].
  destruct self as [? ? ? ? ? ? ? ? ? ? cv ? ? ? ?]. cbn.
  split; [reflexivity|]. split; [exact Hr|].
  split.
  - now apply last_in_nonempty.
  - intros ch' [= <-]. now apply last_in_nonempty.
Qed.

End Ordered.

(** *** Resuming *)

Lemma reset_to_base_audio_idle_eq (self : MusicManager V) (mc : Channel V) :
  is_idle_version self = true ->
  music_channel self = Some mc ->
  reset_to_base_audio self = (Done tt, resume_result mc self).
Proof.
  intros Hidle Hch.
  destruct self as [? ? ? ? ? ich msnd ? ? ? ? ? ? ? ?];
    cbn in Hidle, Hch; subst.
  unfold reset_to_base_audio, play_base_track, music_channel_get_busy,
    idle_channel_call, music_channel_call, resume_result.
  py_unfold.
  destruct ich as [[[ics|] icv]|], mc as [[cs|] cv], msnd as [ms|]; cbn.
  all: match goal with |- context [fade_to ?t ?s] =>
         rewrite (fade_to_trace t s _ eq_refl)
       end.
  all: reflexivity.
Qed.


(** X9.  On an idle controller with both channels, [reset_to_base_audio]
    returns normally and leaves the idle lane silent, the base lane on
    what it was playing or, if it was not busy, on the main sound (silent
    when there is none), the idle flag cleared and [current_volume] at
    [normal_volume]; a second call then changes nothing. *)
Theorem reset_to_base_audio_resumes (self : MusicManager V)
    (mc ic : Channel V) :
  is_idle_version self = true ->
  music_channel self = Some mc ->
  idle_channel self = Some ic ->
  exists self' mc' ic',
    reset_to_base_audio self = (Done tt, self') /\
    idle_channel self' = Some ic' /\ chan_playing ic' = None /\
    music_channel self' = Some mc' /\
    chan_playing mc' =
      (if chan_get_busy mc then chan_playing mc else main_sound self) /\
    main_sound self' = main_sound self /\
    is_idle_version self' = false /\
    current_volume self' = normal_volume self' /\
    reset_to_base_audio self' = (Done tt, self').
Proof.
  intros Hidle Hmc Hic.
  rewrite (reset_to_base_audio_idle_eq self mc Hidle Hmc).
  unfold resume_result.
  set (vols := fade_volumes 10 _ _). clearbody vols.
  destruct self as [? ? ? ? ? ? msnd ? ? ? ? ? ? ? ?]; cbn in Hidle, Hmc, Hic.
  subst.
  destruct ic as [[ics|] icv], mc as [[cs|] cv], msnd as [ms|]; cbn.
  all: do 3 eexists; split; [reflexivity|]; cbn.
  all: repeat (split; [reflexivity|]).
  all: apply reset_to_base_audio_active; reflexivity.
Qed.

(** X10.  [reset_to_base_audio] is the one method with no guard on the
    base channel: with the idle flag set and [music_channel] still [None]
    it raises [AttributeError], after stopping the idle lane, and leaves
    the flag set and [current_volume] untouched. *)
Theorem reset_to_base_audio_unguarded (self : MusicManager V) :
  is_idle_version self = true ->
  music_channel self = None ->
  exists self',
    reset_to_base_audio self = (Raised AttributeError, self') /\
    is_idle_version self' = true /\
    current_volume self' = current_volume self /\
    music_channel self' = None /\
    (forall ic, idle_channel self = Some ic ->
       exists ic', idle_channel self' = Some ic' /\ chan_playing ic' = None).
Proof.
  intros Hidle Hmc.
  destruct self as [? ? ? ? ? ich ? ? ? ? ? ? ? ? ?]; cbn in Hidle, Hmc; subst.
  unfold reset_to_base_audio, music_channel_get_busy, idle_channel_call.
  py_unfold.
  destruct ich as [[[ics|] icv]|]; cbn.
  all: eexists; split; [reflexivity|]; cbn; repeat split.
  all: intros ic [= <-]; eexists; split; reflexivity.
Qed.

(** *** Sequences of calls *)

Lemma same_setup_refl (a : MusicManager V) : same_setup a a.
Proof. repeat split. Qed.

Lemma same_setup_trans (a b c : MusicManager V) :
  same_setup a b -> same_setup b c -> same_setup a c.
Proof.
  unfold same_setup. intros (?&?&?&?&?&?&?) (?&?&?&?&?&?&?).
  repeat split; congruence.
Qed.

Lemma perform_keeps_setup (c : Call) (self : MusicManager V) :
  initialised self ->
  exists self',
    perform w c self = (Done tt, self') /\
    initialised self' /\ same_setup self self'.
Proof.
  intros [Hm Hi].
  destruct (music_channel self) as [mc|] eqn:Hmc; [|discriminate].
  destruct (idle_channel self) as [ic|] eqn:Hic; [|discriminate].
  destruct c as [zone_name|idle_option|]; cbn [perform].
  - destruct (decide (resolve_track (zone_music_map self) zone_name = base self))
      as [He|Hne].
    + exists self. unfold set_zone_music, initialised. py_unfold.
      rewrite He, String.eqb_refl, Hmc, Hic. repeat split.
    + rewrite (set_zone_music_switch w self zone_name Hne).
      eexists. split; [reflexivity|]. unfold zone_switch_result.
      destruct self as [? ? ? ? ? ? msnd ? ? ? ? ? ? ? ?]; cbn in Hmc, Hic.
      subst.
      destruct (located_file w _ _) as [file|];
        [destruct (sound_loads w file)|]; cbn.
      all: try (destruct msnd as [s'|]; cbn).
      all: repeat split.
  - destruct (decide (idle_option = 1%Z)) as [->|H1].
    { destruct (trigger_idle_audio_muffle w self mc Hmc)
        as (v & ch' & vols & -> & _).
      eexists. split; [reflexivity|].
      destruct self as [? ? ? ? ? ? ? ? ? ? ? ? ? ? ?]; cbn in Hmc, Hic. subst.
      repeat split. }
    destruct (decide (idle_option = 2%Z \/ idle_option = 3%Z)) as [Ho|Ho].
    { rewrite (trigger_idle_audio_track w self mc idle_option Ho Hmc).
      eexists. split; [reflexivity|]. unfold idle_track_result.
      destruct self as [? ? ? ? ? ? ? ? ? ? ? ? ? ? ?]; cbn in Hmc, Hic. subst.
      destruct (located_file w _ _) as [file|];
        [destruct (sound_loads w file)|]; cbn.
      all: repeat split. }
    rewrite (trigger_idle_audio_other w self mc idle_option); [|tauto..|exact Hmc].
    eexists. split; [reflexivity|].
    destruct self as [? ? ? ? ? ? ? ? ? ? ? ? ? ? ?]; cbn in Hmc, Hic. subst.
    repeat split.
  - destruct (is_idle_version self) eqn:Hidle.
    + rewrite (reset_to_base_audio_idle_eq self mc Hidle Hmc).
      eexists. split; [reflexivity|]. unfold resume_result.
      set (vols := fade_volumes 10 _ _). clearbody vols.
      destruct self as [? ? ? ? ? ? msnd ? ? ? ? ? ? ? ?];
        cbn in Hmc, Hic, Hidle. subst.
      destruct ic as [[ics|] icv], mc as [[cs|] cv], msnd as [ms|]; cbn.
      all: repeat split.
    + exists self. rewrite reset_to_base_audio_active by exact Hidle.
      unfold initialised. rewrite Hmc, Hic. repeat split.
Qed.

(** X11.  Once both channels are there, no sequence of [set_zone_music],
    [trigger_idle_audio] (with any option) and [reset_to_base_audio] calls
    raises; both channels stay, and the zone map, the folder and the
    normal and muffled volumes never change. *)
Theorem perform_all_never_raises (cs : list Call) :
  forall self : MusicManager V,
    initialised self ->
    exists self',
      perform_all w cs self = (Done tt, self') /\
      initialised self' /\ same_setup self self'.
Proof.
  induction cs as [|c cs IH]; intros self Hinit.
  - exists self. split; [reflexivity|]. split; [exact Hinit|].
    apply same_setup_refl.
  - destruct (perform_keeps_setup c self Hinit) as (self1 & He & Hi1 & Hs1).
    destruct (IH self1 Hi1) as (self' & He' & Hi' & Hs').
    exists self'. split; [|split; [exact Hi'|]].
    + cbn [perform_all]. py_unfold. now rewrite He.
    + now apply (same_setup_trans self self1 self').
Qed.


(** *** Zone switches, again *)

Lemma set_zone_music_unchanged (self : MusicManager V) (zone_name : string) :
  resolve_track (zone_music_map self) zone_name = base self ->
  set_zone_music w zone_name self = (Done tt, self).
Proof.
  intros H. unfold set_zone_music. py_unfold.
  now rewrite H, String.eqb_refl.
Qed.

(** X12.  After [set_zone_music(zone)] the base track is the resolved
    track of the zone, loaded or not, so the same call made again does
    nothing: a track that failed to load is not tried a second time. *)
Theorem set_zone_music_twice (self : MusicManager V) (zone_name : string) :
  exists self',
    set_zone_music w zone_name self = (Done tt, self') /\
    base self' = resolve_track (zone_music_map self) zone_name /\
    zone_music_map self' = zone_music_map self /\
    set_zone_music w zone_name self' = (Done tt, self').
Proof.
  destruct (decide (resolve_track (zone_music_map self) zone_name = base self))
    as [He|Hne].
  - exists self. rewrite set_zone_music_unchanged by exact He. auto.
  - rewrite (set_zone_music_switch w self zone_name Hne).
    eexists. split; [reflexivity|].
    assert (Hb : base (zone_switch_result w zone_name self)
                 = resolve_track (zone_music_map self) zone_name
                 /\ zone_music_map (zone_switch_result w zone_name self)
                    = zone_music_map self).
    { unfold zone_switch_result.
      destruct self as [? ? ? ? mch ? msnd ? ? ? ? ? ? ? ?].
      destruct (located_file w _ _) as [file|];
        [destruct (sound_loads w file)|]; cbn.
      all: try (destruct msnd as [s'|]; cbn).
      all: destruct mch as [mc|]; cbn; split; reflexivity. }
    destruct Hb as [Hb Hz]. split; [exact Hb|]. split; [exact Hz|].
    apply set_zone_music_unchanged. now rewrite Hz, Hb.
Qed.

(** X13.  [set_zone_music] only ever calls the base lane: the idle
    channel, the idle sound and the fixed settings are as before. *)
Theorem set_zone_music_spares_idle_lane (self : MusicManager V)
    (zone_name : string) :
  exists self' calls,
    set_zone_music w zone_name self = (Done tt, self') /\
    idle_channel self' = idle_channel self /\
    idle_sound self' = idle_sound self /\
    mixer_calls self' = mixer_calls self ++ calls /\
    Forall on_base_lane calls /\
    same_setup self self'.
Proof.
  destruct (decide (resolve_track (zone_music_map self) zone_name = base self))
    as [He|Hne].
  - exists self, []. rewrite set_zone_music_unchanged by exact He.
    rewrite app_nil_r. repeat split. constructor.
  - rewrite (set_zone_music_switch w self zone_name Hne).
    unfold zone_switch_result.
    destruct self as [? ? ? ? mch ? msnd ? ? ? ? ? ? ? ?].
    destruct (located_file w _ _) as [file|];
      [destruct (sound_loads w file)|]; cbn.
    all: try (destruct msnd as [s'|]; cbn).
    all: destruct mch as [mc|]; cbn.
    all: do 2 eexists; split; [reflexivity|]; cbn.
    all: split; [reflexivity|]; split; [reflexivity|].
    all: split;
      [first [ apply calls_app3 | apply calls_app1
             | symmetry; apply app_nil_r ]|].
    all: split; [repeat constructor|repeat split].
Qed.

(** X14.  A zone switch made while an idle track is looping (and a main
    sound is loaded) clears the idle flag without stopping the idle lane;
    [reset_to_base_audio] then does nothing, so the idle track keeps
    playing. *)
Theorem idle_track_outlives_zone_switch (self : MusicManager V)
    (zone_name : string) (mc ic : Channel V) (s s' : Sound) :
  resolve_track (zone_music_map self) zone_name <> base self ->
  music_channel self = Some mc ->
  idle_channel self = Some ic ->
  chan_playing ic = Some s ->
  main_sound self = Some s' ->
  exists self',
    set_zone_music w zone_name self = (Done tt, self') /\
    is_idle_version self' = false /\
    (exists ic', idle_channel self' = Some ic' /\ chan_playing ic' = Some s) /\
    reset_to_base_audio self' = (Done tt, self').
Proof.
  intros Hne Hmc Hic Hs Hms.
  rewrite (set_zone_music_switch w self zone_name Hne).
  eexists. split; [reflexivity|].
  assert (Hf : is_idle_version (zone_switch_result w zone_name self) = false
               /\ idle_channel (zone_switch_result w zone_name self) = Some ic).
  { unfold zone_switch_result.
    destruct self as [? ? ? ? ? ? ? ? ? ? ? ? ? ? ?]; cbn in Hmc, Hic, Hms.
    subst.
    destruct (located_file w _ _) as [file|];
      [destruct (sound_loads w file)|]; cbn; split; reflexivity. }
  destruct Hf as [Hf Hi]. split; [exact Hf|]. split; [now exists ic|].
  now apply reset_to_base_audio_active.
Qed.

(** X15.  When a zone switch ends with a main sound loaded, the base
    lane loops it at the volume [current_volume] had before the call,
    while [current_volume] itself becomes [normal_volume]: after a switch
    from the muffled state the two differ. *)
Theorem zone_switch_plays_at_old_volume (self : MusicManager V)
    (zone_name : string) (mc : Channel V) :
  resolve_track (zone_music_map self) zone_name <> base self ->
  music_channel self = Some mc ->
  exists self',
    set_zone_music w zone_name self = (Done tt, self') /\
    forall s, main_sound self' = Some s ->
      music_channel self' =
        Some {| chan_playing := Some s; chan_volume := current_volume self |} /\
      current_volume self' = normal_volume self.
Proof.
  intros Hne Hmc.
  rewrite (set_zone_music_switch w self zone_name Hne).
  eexists. split; [reflexivity|]. unfold zone_switch_result.
  destruct self as [? ? ? ? ? ? msnd ? ? ? ? ? ? ? ?]; cbn in Hmc. subst.
  destruct (located_file w _ _) as [file|];
    [destruct (sound_loads w file)|]; cbn.
  all: try (destruct msnd as [s'|]; cbn).
  all: intros s Hs; try discriminate.
  all: inversion Hs; subst; split; reflexivity.
Qed.

(** *** Loading *)

(** X16.  [load_base_track] never raises and assigns nothing but
    [main_sound]; it never clears a loaded sound, and when it changes
    [main_sound] the new sound is the decoded file of the base track. *)
Theorem load_base_track_keeps_sound (self : MusicManager V) :
  exists ms,
    load_base_track w self = (Done tt, set_main_sound ms self) /\
    (is_some (main_sound self) = true -> is_some ms = true) /\
    (ms <> main_sound self ->
       exists file, located_file w self (base self) = Some file /\
                    sound_loads w file = true /\ ms = Some (SoundOf file)).
Proof.
  rewrite load_base_track_eq.
  destruct (located_file w self (base self)) as [file|] eqn:Hloc;
    [destruct (sound_loads w file) eqn:Hl|].
  - exists (Some (SoundOf file)). split; [reflexivity|]. split; [reflexivity|].
    intros _. exists file. auto.
  - exists (main_sound self). split; [now destruct self|].
    split; [auto|congruence].
  - exists (main_sound self). split; [now destruct self|].
    split; [auto|congruence].
Qed.

(** *** Idle entry *)

(** X17.  Option 1 on an initialised base channel sets the idle flag and
    fades: ten [set_volume] calls on the base lane, which keeps playing
    the same sound at a volume equal to the new [current_volume]; the
    idle lane, the sounds and [base] are untouched. *)
Theorem trigger_idle_muffle_frame (self : MusicManager V) (mc : Channel V) :
  music_channel self = Some mc ->
  exists self' vols,
    trigger_idle_audio w 1 self = (Done tt, self') /\
    is_idle_version self' = true /\
    length vols = 10%nat /\
    mixer_calls self' = mixer_calls self ++ map (SetVolume BaseLane) vols /\
    music_channel self' =
      Some {| chan_playing := chan_playing mc;
              chan_volume := current_volume self' |} /\
    idle_channel self' = idle_channel self /\
    idle_sound self' = idle_sound self /\
    main_sound self' = main_sound self /\
    base self' = base self.
Proof.
  intros Hmc.
  unfold trigger_idle_audio. py_unfold. rewrite Hmc. cbn.
  rewrite (fade_to_trace (muffled_volume self) self mc Hmc).
  set (vols := fade_volumes 10 _ _).
  assert (Hl : length vols = 10%nat) by apply fade_volumes_length.
  clearbody vols.
  eexists. exists vols. split; [reflexivity|].
  destruct self as [? ? ? ? ? ? ? ? ? ? cv ? ? ? ?]. cbn.
  split; [reflexivity|]. split; [exact Hl|]. split; [reflexivity|].
  split; [|repeat split].
  f_equal. f_equal. apply last_nonempty_default.
  intros ->. discriminate.
Qed.

(** X18.  With option 2 or 3, when the idle track has no file or its
    file does not decode, [trigger_idle_audio] returns normally with a
    single call, the stop of the idle lane: the lane is silent, the idle
    sound is as before, and the idle flag is set all the same. *)
Theorem idle_track_failure_is_silent (self : MusicManager V)
    (mc ic : Channel V) (idle_option : Z) :
  idle_option = 2%Z \/ idle_option = 3%Z ->
  music_channel self = Some mc ->
  idle_channel self = Some ic ->
  (located_file w self (idle_track_name idle_option) = None \/
   exists file,
     located_file w self (idle_track_name idle_option) = Some file /\
     sound_loads w file = false) ->
  exists self',
    trigger_idle_audio w idle_option self = (Done tt, self') /\
    idle_channel self' = Some (chan_stop ic) /\
    idle_sound self' = idle_sound self /\
    is_idle_version self' = true /\
    mixer_calls self' = mixer_calls self ++ [Stop IdleLane].
Proof.
  intros Ho Hmc Hic Hfail.
  rewrite (trigger_idle_audio_track w self mc idle_option Ho Hmc).
  eexists. split; [reflexivity|]. unfold idle_track_result. rewrite Hic.
  destruct Hfail as [->|(file & -> & ->)]; repeat split.
Qed.


(** *** Construction *)






End TimeFacts.

(** ** The further properties on the sample environment *)

Lemma Q_ltb_asym (a b : Q) : f_ltb a b = true -> f_ltb b a = false.
Proof.
  cbn. intros H. apply negb_true_iff, Qle_bool_false in H.
  apply negb_false_iff, Qle_bool_iff. now apply Qlt_le_weak.
Qed.

Lemma fade_to_frame_witness :
  exists self' vols,
    fade_to (2 # 10) demo_manager = (Done tt, self') /\
    length vols = 10%nat /\
    mixer_calls self' = mixer_calls demo_manager ++ map (SetVolume BaseLane) vols /\
    current_volume self' = List.last vols (current_volume demo_manager) /\
    music_channel self' =
      Some {| chan_playing := Some (SoundOf "music/CoroTown.mp3");
              chan_volume := current_volume self' |} /\
    idle_channel self' = idle_channel demo_manager /\
    main_sound self' = main_sound demo_manager /\
    idle_sound self' = idle_sound demo_manager /\
    base self' = base demo_manager /\
    is_idle_version self' = is_idle_version demo_manager /\
    same_setup demo_manager self'.
Proof.
  apply (fade_to_frame (2 # 10) demo_manager
           {| chan_playing := Some (SoundOf "music/CoroTown.mp3");
              chan_volume := 6 # 10 |}).
  vm_compute. reflexivity.
Defined.

Lemma fade_to_in_unit_range_witness :
  exists self' vols,
    fade_to (5 # 1) demo_manager = (Done tt, self') /\
    mixer_calls self' = mixer_calls demo_manager ++ map (SetVolume BaseLane) vols /\
    Forall in_unit_range vols /\
    in_unit_range (current_volume self') /\
    (forall ch', music_channel self' = Some ch' ->
       in_unit_range (chan_volume ch')).
Proof.
  apply (fade_to_in_unit_range Q_ltb_asym eq_refl (5 # 1) demo_manager
           {| chan_playing := Some (SoundOf "music/CoroTown.mp3");
              chan_volume := 6 # 10 |}).
  vm_compute. reflexivity.
Defined.

(** A fade towards 5.0 is cut off at 1.0. *)
Example fade_to_5_ends_at_1 :
  (current_volume (snd (fade_to (5 # 1) demo_manager)) == 1)%Q.
Proof. vm_compute. reflexivity. Qed.

Lemma reset_to_base_audio_resumes_witness :
  exists self' mc' ic',
    reset_to_base_audio idle_track_manager = (Done tt, self') /\
    idle_channel self' = Some ic' /\ chan_playing ic' = None /\
    music_channel self' = Some mc' /\
    chan_playing mc' =
      (if chan_get_busy {| chan_playing := Some (SoundOf "music/CoroTown.mp3");
                           chan_volume := 6 # 10 |}
       then Some (SoundOf "music/CoroTown.mp3")
       else main_sound idle_track_manager) /\
    main_sound self' = main_sound idle_track_manager /\
    is_idle_version self' = false /\
    current_volume self' = normal_volume self' /\
    reset_to_base_audio self' = (Done tt, self').
Proof.
  apply (reset_to_base_audio_resumes idle_track_manager
           {| chan_playing := Some (SoundOf "music/CoroTown.mp3");
              chan_volume := 6 # 10 |}
           {| chan_playing := Some (SoundOf "music/idleDaniel.mp3");
              chan_volume := 2 # 10 |}).
  - vm_compute. reflexivity.
  - vm_compute. reflexivity.
  - vm_compute. reflexivity.
Defined.

Lemma reset_to_base_audio_unguarded_witness :
  exists self',
    reset_to_base_audio unguarded_manager = (Raised AttributeError, self') /\
    is_idle_version self' = true /\
    current_volume self' = current_volume unguarded_manager /\
    music_channel self' = None /\
    (forall ic, idle_channel unguarded_manager = Some ic ->
       exists ic', idle_channel self' = Some ic' /\ chan_playing ic' = None).
Proof.
  apply (reset_to_base_audio_unguarded unguarded_manager).
  - vm_compute. reflexivity.
  - vm_compute. reflexivity.
Defined.

Lemma perform_all_never_raises_witness :
  exists self',
    perform_all demo_world
      [CallTriggerIdle 2; CallSetZone "town"; CallReset; CallTriggerIdle 7;
       CallSetZone "Nowhere"; CallReset]
      demo_manager = (Done tt, self') /\
    initialised self' /\ same_setup demo_manager self'.
Proof.
  apply (perform_all_never_raises demo_world
           [CallTriggerIdle 2; CallSetZone "town"; CallReset; CallTriggerIdle 7;
            CallSetZone "Nowhere"; CallReset]
           demo_manager).
  split; vm_compute; reflexivity.
Defined.

Lemma idle_track_outlives_zone_switch_witness :
  exists self',
    set_zone_music demo_world "town" idle_track_manager = (Done tt, self') /\
    is_idle_version self' = false /\
    (exists ic', idle_channel self' = Some ic' /\
                 chan_playing ic' = Some (SoundOf "music/idleDaniel.mp3")) /\
    reset_to_base_audio self' = (Done tt, self').
Proof.
  apply (idle_track_outlives_zone_switch demo_world idle_track_manager "town"
           {| chan_playing := Some (SoundOf "music/CoroTown.mp3");
              chan_volume := 6 # 10 |}
           {| chan_playing := Some (SoundOf "music/idleDaniel.mp3");
              chan_volume := 2 # 10 |}
           (SoundOf "music/idleDaniel.mp3") (SoundOf "music/CoroTown.mp3")).
  - vm_compute. discriminate.
  - vm_compute. reflexivity.
  - vm_compute. reflexivity.
  - reflexivity.
  - vm_compute. reflexivity.
Defined.

Lemma zone_switch_plays_at_old_volume_witness :
  exists self',
    set_zone_music demo_world "town" muffled_manager = (Done tt, self') /\
    forall s, main_sound self' = Some s ->
      music_channel self' =
        Some {| chan_playing := Some s;
                chan_volume := current_volume muffled_manager |} /\
      current_volume self' = normal_volume muffled_manager.
Proof.
  destruct (music_channel muffled_manager) as [mc|] eqn:Hmc;
    [|vm_compute in Hmc; discriminate].
  apply (zone_switch_plays_at_old_volume demo_world muffled_manager "town" mc).
  - vm_compute. discriminate.
  - exact Hmc.
Defined.

(** There the base lane is left at the faded volume under a
    [current_volume] of 0.6. *)
Example muffled_switch_volumes :
  let self' := snd (set_zone_music demo_world "town" muffled_manager) in
  (current_volume self' == 6 # 10)%Q /\
  exists mc, music_channel self' = Some mc /\ (chan_volume mc == 2 # 10)%Q.
Proof.
  split; [vm_compute; reflexivity|].
  eexists. split; [vm_compute; reflexivity|]. vm_compute. reflexivity.
Qed.

Lemma trigger_idle_muffle_frame_witness :
  exists self' vols,
    trigger_idle_audio demo_world 1 demo_manager = (Done tt, self') /\
    is_idle_version self' = true /\
    length vols = 10%nat /\
    mixer_calls self' = mixer_calls demo_manager ++ map (SetVolume BaseLane) vols /\
    music_channel self' =
      Some {| chan_playing := Some (SoundOf "music/CoroTown.mp3");
              chan_volume := current_volume self' |} /\
    idle_channel self' = idle_channel demo_manager /\
    idle_sound self' = idle_sound demo_manager /\
    main_sound self' = main_sound demo_manager /\
    base self' = base demo_manager.
Proof.
  apply (trigger_idle_muffle_frame demo_world demo_manager
           {| chan_playing := Some (SoundOf "music/CoroTown.mp3");
              chan_volume := 6 # 10 |}).
  vm_compute. reflexivity.
Defined.

Lemma idle_track_failure_is_silent_witness :
  exists self',
    trigger_idle_audio demo_world 3 demo_manager = (Done tt, self') /\
    idle_channel self' = Some (chan_stop fresh_channel) /\
    idle_sound self' = idle_sound demo_manager /\
    is_idle_version self' = true /\
    mixer_calls self' = mixer_calls demo_manager ++ [Stop IdleLane].
Proof.
  apply (idle_track_failure_is_silent demo_world demo_manager
           {| chan_playing := Some (SoundOf "music/CoroTown.mp3");
              chan_volume := 6 # 10 |}
           fresh_channel 3).
  - right. reflexivity.
  - vm_compute. reflexivity.
  - vm_compute. reflexivity.
  - left. vm_compute. reflexivity.
Defined.

(** A [maps.json] that holds a list: the zone map falls back, and
    [get_zone_info] raises. *)
Example get_zone_info_on_a_list :
  let w := {| path_exists p := String.eqb p "maps.json";
              path_isfile p := String.eqb p "maps.json";
              listdir _ := None;
              json_load _ := inr (JList [JStr "town"]);
              sound_loads _ := false |} in
  let self : MusicManager Q :=
    snd (MusicManager_init w "src" "CoroTown" "music" (Some "maps.json")) in
  zone_music_map self = default_zone_music /\
  get_zone_info self "town" = Raised AttributeError.
Proof. split; vm_compute; reflexivity. Qed.
